(** * ati_ft_sensor_tcp: the ATI force/torque sensor driver

    A shallow embedding of [src/ati_ft_sensor_tcp/ati_ft_sensor_tcp.py].

    - Python [bytes] are [list byte]; [int] is [Z]; [float] is an IEEE
      binary64 value, written with the standard library's [spec_float]
      at precision 53 and maximal exponent 1024.
    - The object [self] is a record; a method is a function from the
      record to an outcome (a returned value or a raised exception)
      paired with the record after the call, since an attribute written
      before a [raise] stays written.
    - The socket is the one collaborator outside the program: the record
      keeps whether it was closed and the list of calls made on it, and
      each method takes what the network answers to the one [sendall] and
      the one [recv] it can make.
    - Logging and the [perf_counter_ns] timings have no effect on any
      value below and are left out. *)

From Stdlib Require Import ZArith List Bool Lia String Ascii.
From Stdlib Require Import Strings.Byte.
From Stdlib Require Import Floats.SpecFloat.
Import ListNotations.

Local Open Scope Z_scope.

(** ** Python values *)

(** The exceptions the driver can meet.  The two [raise Exception(...)]
    sites of [get_calibration_info] are told apart by their message. *)
Inductive exception_message : Type :=
  | msg_socket_not_connected
      (* "Could not read calibration data because socket is not in
         connected state, it is unsafe to proceed without calibration
         data." *)
  | msg_recv_timeout.
      (* "Could not read calibration data because of recv() timeout after
         {self.timeout}[sec]. It is unsafe to proceed without calibration
         data." *)

Inductive exn : Type :=
  | socket_timeout            (* socket.timeout *)
  | OSError                   (* any other failure of the socket *)
  | IndexError
  | TypeError
  | ValueError
  | AttributeError
  | ZeroDivisionError
  | OverflowError
  | Exception (msg : exception_message).

Inductive outcome (A : Type) : Type :=
  | Returned (a : A)
  | Raised (e : exn).
Arguments Returned {A} a.
Arguments Raised {A} e.

(** *** Floats *)

Definition float : Type := spec_float.

Definition prec : Z := 53.
Definition emax : Z := 1024.

Definition float_div : float -> float -> float := SFdiv prec emax.
Definition float_sub : float -> float -> float := SFsub prec emax.

(** The float nearest to an integer (ties to even). *)
Definition float_of_int (z : Z) : float := binary_normalize prec emax z 0 false.

Definition is_finite (x : float) : bool :=
  match x with
  | S754_zero _ | S754_finite _ _ _ => true
  | S754_infinity _ | S754_nan => false
  end.

Definition pos_zero : float := S754_zero false.

(** A Python number: the bias lists start as the ints [[0, 0, 0]] and
    hold floats after [zero_sensor]. *)
Inductive pynum : Type :=
  | PyInt (z : Z)
  | PyFloat (x : float).

(** An int as the exact operand of a division: sign, magnitude and
    exponent 0, with no rounding. *)
Definition exact_int (z : Z) : float :=
  match z with
  | Z0 => S754_zero false
  | Zpos p => S754_finite false p 0
  | Zneg p => S754_finite true p 0
  end.

(** [int / int]: true division of two ints gives the float nearest to the
    exact quotient, [ZeroDivisionError] for a zero divisor and
    [OverflowError] when the quotient is too large for a float. *)
Definition py_truediv (a b : Z) : outcome float :=
  if b =? 0 then Raised ZeroDivisionError
  else
    let q := float_div (exact_int a) (exact_int b) in
    if is_finite q then Returned q else Raised OverflowError.

(** The float an operand of a float operation is taken as: an int is
    converted, [OverflowError] when it is too large. *)
Definition as_float (x : pynum) : outcome float :=
  match x with
  | PyFloat f => Returned f
  | PyInt z =>
      let f := float_of_int z in
      if is_finite f then Returned f else Raised OverflowError
  end.

(** [x - y]: int arithmetic on two ints, float arithmetic as soon as one
    operand is a float. *)
Definition py_sub (x y : pynum) : outcome pynum :=
  match x, y with
  | PyInt a, PyInt b => Returned (PyInt (a - b))
  | _, _ =>
      match as_float x with
      | Raised e => Raised e
      | Returned fx =>
          match as_float y with
          | Raised e => Raised e
          | Returned fy => Returned (PyFloat (float_sub fx fy))
          end
      end
  end.

(** [l[i] = v] for a constant [i >= 0]: [IndexError] past the end. *)
Fixpoint py_setitem {A : Type} (l : list A) (i : nat) (v : A) : outcome (list A) :=
  match l, i with
  | [], _ => Raised IndexError
  | _ :: t, O => Returned (v :: t)
  | h :: t, S j =>
      match py_setitem t j v with
      | Returned t' => Returned (h :: t')
      | Raised e => Raised e
      end
  end.

(** *** Bytes *)

Definition bytes : Type := list byte.

Definition byte_val (b : byte) : Z := Z.of_N (Byte.to_N b).

(** [data[lo:hi]] for constants [0 <= lo <= hi]: a slice never raises, it
    is cut at the end of [data]. *)
Definition py_slice {A : Type} (l : list A) (lo hi : nat) : list A :=
  firstn (hi - lo) (skipn lo l).

(** [data[i]] for a constant [i >= 0]: [IndexError] past the end. *)
Definition py_index {A : Type} (l : list A) (i : nat) : outcome A :=
  match nth_error l i with
  | Some x => Returned x
  | None => Raised IndexError
  end.

(** The unsigned big-endian value of a byte string. *)
Definition be_unsigned (bs : bytes) : Z :=
  fold_left (fun acc b => acc * 256 + byte_val b) bs 0.

(** [int.from_bytes(bs, signed=True)]: the byte order is left out in the
    source and defaults to ["big"] (Python 3.11 and later); the value of
    the empty string is 0; otherwise the top bit of the first byte is the
    sign of a two's complement number of [8 * len(bs)] bits. *)
Definition int_from_bytes_signed (bs : bytes) : Z :=
  match bs with
  | [] => 0
  | b :: _ =>
      if 128 <=? byte_val b
      then be_unsigned bs - 2 ^ (8 * Z.of_nat (List.length bs))
      else be_unsigned bs
  end.

(** [bytes.fromhex(s)]: pairs of hexadecimal digits, with ASCII
    whitespace skipped before, between and after the pairs (not inside
    one); [ValueError] on anything else. *)
Definition hex_digit (c : ascii) : option N :=
  let n := N_of_ascii c in
  if andb (48 <=? n)%N (n <=? 57)%N then Some (n - 48)%N
  else if andb (97 <=? n)%N (n <=? 102)%N then Some (n - 87)%N
  else if andb (65 <=? n)%N (n <=? 70)%N then Some (n - 55)%N
  else None.

(** Space, tab, line feed, vertical tab, form feed, carriage return. *)
Definition is_space (c : ascii) : bool :=
  let n := N_of_ascii c in
  orb (n =? 32)%N (andb (9 <=? n)%N (n <=? 13)%N).

Fixpoint bytes_fromhex (s : string) : outcome bytes :=
  match s with
  | EmptyString => Returned []
  | String hi rest =>
      if is_space hi then bytes_fromhex rest
      else
        match rest with
        | EmptyString => Raised ValueError
        | String lo rest' =>
            match hex_digit hi, hex_digit lo, bytes_fromhex rest' with
            | Some h, Some l, Returned bs =>
                match Byte.of_N (16 * h + l) with
                | Some b => Returned (b :: bs)
                | None => Raised ValueError
                end
            | _, _, _ => Raised ValueError
            end
        end
  end.

(** [s * n] on strings. *)
Fixpoint str_repeat (s : string) (n : nat) : string :=
  match n with
  | O => EmptyString
  | S k => (s ++ str_repeat s k)%string
  end.

(** ** The socket *)

Inductive sock_call : Type :=
  | call_connect
  | call_settimeout
  | call_sendall (message : bytes)
  | call_recv (bufsize : nat)
  | call_close.

(** [closed]: [close()] was called; [calls]: the calls made so far, the
    oldest first. *)
Record socket : Type := mk_socket {
  closed : bool;
  calls : list sock_call
}.

(** What the network answers to one request/response exchange: whether
    [sendall] completes, and the bytes the one [recv] call is handed (or
    the exception it raises, [socket_timeout] when none arrive in
    time). *)
Record network : Type := mk_network {
  sendall_answer : outcome unit;
  recv_answer : outcome bytes
}.

(** ** The driver object *)

Definition BUFFER_SIZE : nat := 1024.
Definition MESSAGE_LENGTH : nat := 20.
Definition HEADER_LENGTH : nat := 2.

(** The attributes of [self] the methods read or write.  [ip], [port] and
    [timeout] only parameterise the socket and are not kept. *)
Record ATIForceTorqueSensor : Type := mk_sensor {
  connected : bool;
  sock : socket;
  F_bias : list pynum;
  T_bias : list pynum;
  scaling_factors_F : list Z;
  scaling_factors_T : list Z;
  force_units : option Z;
  torque_units : option Z;
  counts_per_force : option Z;
  counts_per_torque : option Z
}.

Definition set_connected (b : bool) (self : ATIForceTorqueSensor) : ATIForceTorqueSensor :=
  mk_sensor b (sock self) (F_bias self) (T_bias self)
    (scaling_factors_F self) (scaling_factors_T self)
    (force_units self) (torque_units self)
    (counts_per_force self) (counts_per_torque self).

Definition set_sock (s : socket) (self : ATIForceTorqueSensor) : ATIForceTorqueSensor :=
  mk_sensor (connected self) s (F_bias self) (T_bias self)
    (scaling_factors_F self) (scaling_factors_T self)
    (force_units self) (torque_units self)
    (counts_per_force self) (counts_per_torque self).

Definition set_F_bias (b : list pynum) (self : ATIForceTorqueSensor) : ATIForceTorqueSensor :=
  mk_sensor (connected self) (sock self) b (T_bias self)
    (scaling_factors_F self) (scaling_factors_T self)
    (force_units self) (torque_units self)
    (counts_per_force self) (counts_per_torque self).

Definition set_T_bias (b : list pynum) (self : ATIForceTorqueSensor) : ATIForceTorqueSensor :=
  mk_sensor (connected self) (sock self) (F_bias self) b
    (scaling_factors_F self) (scaling_factors_T self)
    (force_units self) (torque_units self)
    (counts_per_force self) (counts_per_torque self).

(** The tuple [get_calibration_info] returns: force_units, torque_units,
    counts_per_force, counts_per_torque, scaling_factors_F,
    scaling_factors_T. *)
Definition calibration_info : Type := (Z * Z * Z * Z * list Z * list Z)%type.

Definition set_calibration (c : calibration_info) (self : ATIForceTorqueSensor)
  : ATIForceTorqueSensor :=
  let '(fu, tu, cf, ct, sf, st) := c in
  mk_sensor (connected self) (sock self) (F_bias self) (T_bias self)
    sf st (Some fu) (Some tu) (Some cf) (Some ct).

(** ** Methods: state and exceptions *)

Definition M (A : Type) : Type :=
  ATIForceTorqueSensor -> outcome A * ATIForceTorqueSensor.

Definition ret {A : Type} (a : A) : M A := fun self => (Returned a, self).

Definition raise {A : Type} (e : exn) : M A := fun self => (Raised e, self).

Definition bind {A B : Type} (c : M A) (k : A -> M B) : M B :=
  fun self =>
    match c self with
    | (Returned a, self') => k a self'
    | (Raised e, self') => (Raised e, self')
    end.

Notation "x <- c ;; k" := (bind c (fun x => k))
  (at level 61, c at next level, right associativity).
Notation "c ;;; k" := (bind c (fun _ => k))
  (at level 61, right associativity).

(** An expression that may raise, evaluated inside a method. *)
Definition lift {A : Type} (o : outcome A) : M A := fun self => (o, self).

(** Reading an attribute. *)
Definition attr {A : Type} (f : ATIForceTorqueSensor -> A) : M A :=
  fun self => (Returned (f self), self).

(** Writing attributes. *)
Definition assign (f : ATIForceTorqueSensor -> ATIForceTorqueSensor) : M unit :=
  fun self => (Returned tt, f self).

(** [try: body except socket.timeout: handler]: every other exception
    goes on to the caller. *)
Definition try_except_timeout {A : Type} (body handler : M A) : M A :=
  fun self =>
    match body self with
    | (Raised socket_timeout, self') => handler self'
    | r => r
    end.

(** [for i in idx: acc = body i acc]. *)
Fixpoint for_in {A : Type} (idx : list nat) (body : nat -> A -> M A) (acc : A) : M A :=
  match idx with
  | [] => ret acc
  | i :: rest => acc' <- body i acc ;; for_in rest body acc'
  end.

(** An attribute that may still be [None], used as an operand. *)
Definition operand {A : Type} (o : option A) : M A :=
  match o with
  | Some a => ret a
  | None => raise TypeError
  end.

(** *** Calls on [self.sock] *)

Definition record_call (c : sock_call) (s : socket) : socket :=
  mk_socket (closed s) (calls s ++ [c]).

(** A closed socket refuses every call but [close()] with [OSError]. *)
Definition sock_connect (answer : outcome unit) : M unit :=
  fun self =>
    let s := record_call call_connect (sock self) in
    (if closed s then Raised OSError else answer, set_sock s self).

Definition sock_settimeout : M unit :=
  fun self =>
    let s := record_call call_settimeout (sock self) in
    (if closed s then Raised OSError else Returned tt, set_sock s self).

Definition sock_sendall (net : network) (message : bytes) : M unit :=
  fun self =>
    let s := record_call (call_sendall message) (sock self) in
    (if closed s then Raised OSError else sendall_answer net, set_sock s self).

(** [recv(bufsize)] hands over at most [bufsize] bytes. *)
Definition sock_recv (net : network) (bufsize : nat) : M bytes :=
  fun self =>
    let s := record_call (call_recv bufsize) (sock self) in
    (if closed s then Raised OSError
     else match recv_answer net with
          | Returned data => Returned (firstn bufsize data)
          | Raised e => Raised e
          end,
     set_sock s self).

Definition sock_close : M unit :=
  fun self =>
    let s := record_call call_close (sock self) in
    (Returned tt, set_sock (mk_socket true (calls s)) self).

(** ** The methods of [ATIForceTorqueSensor] *)

(** [__init__]: a fresh socket, not connected, zero bias, no
    calibration. *)
Definition __init__ : ATIForceTorqueSensor :=
  mk_sensor false (mk_socket false [])
    [PyInt 0; PyInt 0; PyInt 0] [PyInt 0; PyInt 0; PyInt 0]
    [] [] None None None None.

(** [_construct_command]: the command code followed by zero bytes up to
    [MESSAGE_LENGTH]. *)
Definition _construct_command (command_code : string) : outcome bytes :=
  match bytes_fromhex command_code with
  | Raised e => Raised e
  | Returned command =>
      match bytes_fromhex (str_repeat "00" (MESSAGE_LENGTH - List.length command)) with
      | Raised e => Raised e
      | Returned reserved => Returned (command ++ reserved)
      end
  end.

Definition SCALING_FACTOR_BYTE_OFFSET : nat := 12.

(** The body of [get_calibration_info] from [recv] to [return].
    [header = response_data[0:HEADER_LENGTH].hex()] is a slice that is
    never used again and cannot raise; it is left out. *)
Definition parse_calibration (response_data : bytes) : outcome calibration_info :=
  match py_index response_data HEADER_LENGTH with
  | Raised e => Raised e
  | Returned force_units =>
      match py_index response_data (HEADER_LENGTH + 1) with
      | Raised e => Raised e
      | Returned torque_units =>
          let counts_per_force :=
            int_from_bytes_signed
              (py_slice response_data (HEADER_LENGTH + 2) (HEADER_LENGTH + 2 + 4)) in
          let counts_per_torque :=
            int_from_bytes_signed
              (py_slice response_data (HEADER_LENGTH + 2 + 4) (HEADER_LENGTH + 2 + 4 + 4)) in
          let scaling_factors :=
            fold_left
              (fun scaling_factors i =>
                 let factor :=
                   int_from_bytes_signed
                     (py_slice response_data
                        (SCALING_FACTOR_BYTE_OFFSET + i * 2)
                        (SCALING_FACTOR_BYTE_OFFSET + i * 2 + 2)) in
                 scaling_factors ++ [factor])
              (seq 0 6) [] in
          let scaling_factors_F := py_slice scaling_factors 0 3 in
          let scaling_factors_T := py_slice scaling_factors 3 6 in
          Returned (byte_val force_units, byte_val torque_units,
                    counts_per_force, counts_per_torque,
                    scaling_factors_F, scaling_factors_T)
      end
  end.

Definition get_calibration_info (net : network) : M calibration_info :=
  c <- attr connected ;;
  if negb c then
    sock_close ;;;
    raise (Exception msg_socket_not_connected)
  else
    message <- lift (_construct_command "01") ;;
    sock_sendall net message ;;;
    try_except_timeout
      (response_data <- sock_recv net BUFFER_SIZE ;;
       lift (parse_calibration response_data))
      (sock_close ;;;
       raise (Exception msg_recv_timeout)).

(** [__enter__]: connect, then read the calibration into [self]. *)
Definition __enter__ (connect_answer : outcome unit) (net : network) : M unit :=
  sock_connect connect_answer ;;;
  sock_settimeout ;;;
  assign (set_connected true) ;;;
  c <- get_calibration_info net ;;
  assign (set_calibration c).

Definition __exit__ : M unit :=
  c <- attr connected ;;
  if c then sock_close else ret tt.

(** One turn of the two conversion loops of [get_data], for the axis [i]
    of the vector [V] (F or T):
    [raw_value = int.from_bytes(data[OFFSET+i*2:OFFSET+i*2+2], signed=True)],
    [V[i] = raw_value * scaling_factors[i] / counts],
    [if not raw: V[i] -= bias[i]]. *)
Definition convert_axis (raw : bool) (data : bytes) (BYTE_OFFSET : nat)
    (scaling_factors : ATIForceTorqueSensor -> list Z)
    (counts : ATIForceTorqueSensor -> option Z)
    (bias : ATIForceTorqueSensor -> list pynum)
    (i : nat) (V : list pynum) : M (list pynum) :=
  let raw_value :=
    int_from_bytes_signed (py_slice data (BYTE_OFFSET + i * 2) (BYTE_OFFSET + i * 2 + 2)) in
  factors <- attr scaling_factors ;;
  factor <- lift (py_index factors i) ;;
  divisor <- attr counts ;;
  divisor <- operand divisor ;;
  x <- lift (py_truediv (raw_value * factor) divisor) ;;
  V <- lift (py_setitem V i (PyFloat x)) ;;
  if negb raw then
    v <- lift (py_index V i) ;;
    b <- attr bias ;;
    b <- lift (py_index b i) ;;
    v <- lift (py_sub v b) ;;
    lift (py_setitem V i v)
  else ret V.

Definition F_BYTE_OFFSET : nat := 4.
Definition T_BYTE_OFFSET : nat := 10.

(** [get_data(raw)]: [(None, None)] when not connected or on a receive
    timeout, the two converted vectors otherwise. *)
Definition get_data (raw : bool) (net : network)
  : M (option (list pynum) * option (list pynum)) :=
  c <- attr connected ;;
  if negb c then ret (None, None)
  else
    message <- lift (_construct_command "00") ;;
    let F := [PyInt 0; PyInt 0; PyInt 0] in
    let T := [PyInt 0; PyInt 0; PyInt 0] in
    sock_sendall net message ;;;
    try_except_timeout
      (data <- sock_recv net BUFFER_SIZE ;;
       F <- for_in (seq 0 (List.length F))
              (convert_axis raw data F_BYTE_OFFSET scaling_factors_F counts_per_force F_bias) F ;;
       T <- for_in (seq 0 (List.length T))
              (convert_axis raw data T_BYTE_OFFSET scaling_factors_T counts_per_torque T_bias) T ;;
       ret (Some F, Some T))
      (ret (None, None)).

(** [F.copy()]: [None] has no such method. *)
Definition copy {A : Type} (o : option (list A)) : M (list A) :=
  match o with
  | Some l => ret l
  | None => raise AttributeError
  end.

Definition zero_sensor (net : network) : M unit :=
  FT <- get_data true net ;;
  let '(F, T) := FT in
  F' <- copy F ;;
  assign (set_F_bias F') ;;;
  T' <- copy T ;;
  assign (set_T_bias T').

(** ** Running the methods on the frames of the documentation *)

Definition calibration_frame : bytes :=
  [x00; x00; x01; x02; x00; x00; x03; xe8; x00; x00; x03; xe8;
   x00; x0a; x00; x0a; x00; x0a; x00; x05; x00; x05; x00; x05].

Definition sample_frame : bytes :=
  [x00; x00; x00; x00; x00; x64; x00; x64; x00; x64;
   x00; x32; x00; x32; x00; x32].

Definition answers (data : bytes) : network :=
  mk_network (Returned tt) (Returned data).

Definition times_out : network :=
  mk_network (Returned tt) (Raised socket_timeout).

(** The object after [__enter__] received [calibration_frame]. *)
Definition calibrated_sensor : ATIForceTorqueSensor :=
  snd (__enter__ (Returned tt) (answers calibration_frame) __init__).

(** The object after [connect] and before any calibration. *)
Definition connected_sensor : ATIForceTorqueSensor :=
  snd ((sock_connect (Returned tt) ;;; sock_settimeout ;;; assign (set_connected true)) __init__).

(** ** Notions used in the statements *)

(** The value of the byte at offset [i] of a frame. *)
Definition byte_at (data : bytes) (i : nat) : Z := byte_val (nth i data x00).

(** The two's complement reading, on [w] bits, of an unsigned value. *)
Definition sint (w : Z) (u : Z) : Z :=
  if u <? 2 ^ (w - 1) then u else u - 2 ^ w.

(** Signed big-endian fields of 8, 16 and 32 bits at a byte offset. *)
Definition be8 (data : bytes) (off : nat) : Z := sint 8 (byte_at data off).

Definition be16 (data : bytes) (off : nat) : Z :=
  sint 16 (byte_at data off * 2 ^ 8 + byte_at data (off + 1)).

Definition be32 (data : bytes) (off : nat) : Z :=
  sint 32 (byte_at data off * 2 ^ 24 + byte_at data (off + 1) * 2 ^ 16
           + byte_at data (off + 2) * 2 ^ 8 + byte_at data (off + 3)).

Definition int16 (z : Z) : Prop := - 2 ^ 15 <= z < 2 ^ 15.

(** The raw count [get_data] reads for axis [i] of the vector at
    [BYTE_OFFSET] in the bytes it received. *)
Definition raw_value (received : bytes) (BYTE_OFFSET i : nat) : Z :=
  int_from_bytes_signed
    (py_slice received (BYTE_OFFSET + i * 2) (BYTE_OFFSET + i * 2 + 2)).

(** [physical = raw * scaling_factor / counts_per_unit], a float
    division of the exact product by the exact divisor, minus the bias
    unless [raw] is asked for. *)
Definition physical (raw : bool) (r s d : Z) (bias : float) : float :=
  let converted := float_div (exact_int (r * s)) (exact_int d) in
  if raw then converted else float_sub converted bias.

(** The bias list holds, at index [i], a number whose float is [f]. *)
Definition bias_at (bias : list pynum) (i : nat) (f : float) : Prop :=
  exists b, py_index bias i = Returned b /\ as_float b = Returned f.

(** The calibration attributes of two objects agree. *)
Definition same_calibration (a b : ATIForceTorqueSensor) : Prop :=
  scaling_factors_F a = scaling_factors_F b /\
  scaling_factors_T a = scaling_factors_T b /\
  counts_per_force a = counts_per_force b /\
  counts_per_torque a = counts_per_torque b /\
  force_units a = force_units b /\
  torque_units a = torque_units b.

(** Nothing but the socket differs between two objects. *)
Definition same_but_sock (a b : ATIForceTorqueSensor) : Prop :=
  b = set_sock (sock b) a.

(** A method that writes no attribute but [sock]. *)
Definition writes_only_sock {A : Type} (c : M A) : Prop :=
  forall self, same_but_sock self (snd (c self)).

(** The object once [get_data] has sent its command and received. *)
Definition after_exchange (self : ATIForceTorqueSensor) : ATIForceTorqueSensor :=
  set_sock
    (record_call (call_recv BUFFER_SIZE)
       (record_call (call_sendall (x00 :: repeat x00 19)) (sock self)))
    self.

(** Two frames carry the same six raw counts. *)
Definition same_raw_counts (a b : bytes) : Prop :=
  forall i, (i < 3)%nat ->
    raw_value (firstn BUFFER_SIZE a) F_BYTE_OFFSET i
      = raw_value (firstn BUFFER_SIZE b) F_BYTE_OFFSET i /\
    raw_value (firstn BUFFER_SIZE a) T_BYTE_OFFSET i
      = raw_value (firstn BUFFER_SIZE b) T_BYTE_OFFSET i.

(** A calibration response whose [counts_per_force] field is 0, and the
    object after [__enter__] received it. *)
Definition zero_counts_frame : bytes :=
  [x00; x00; x01; x02; x00; x00; x00; x00; x00; x00; x03; xe8;
   x00; x0a; x00; x0a; x00; x0a; x00; x05; x00; x05; x00; x05].

Definition zero_counts_sensor : ATIForceTorqueSensor :=
  snd (__enter__ (Returned tt) (answers zero_counts_frame) __init__).

(** [calibrated_sensor] after [zero_sensor] received [sample_frame]. *)
Definition zeroed_sensor : ATIForceTorqueSensor :=
  snd (zero_sensor (answers sample_frame) calibrated_sensor).

(** ** Notions used in the further properties *)

Definition int32 (z : Z) : Prop := - 2 ^ 31 <= z < 2 ^ 31.

Definition unit_code (z : Z) : Prop := 0 <= z < 256.

(** A calibration tuple whose fields are in the range of their wire
    format, with three scaling factors per vector. *)
Definition well_ranged (c : calibration_info) : Prop :=
  let '(fu, tu, cf, ct, sF, sT) := c in
  unit_code fu /\ unit_code tu /\ int32 cf /\ int32 ct /\
  List.length sF = 3%nat /\ List.length sT = 3%nat /\
  Forall int16 sF /\ Forall int16 sT.

(** The calibration attributes of the object hold the tuple [c]. *)
Definition holds_calibration (self : ATIForceTorqueSensor) (c : calibration_info) : Prop :=
  let '(fu, tu, cf, ct, sF, sT) := c in
  force_units self = Some fu /\ torque_units self = Some tu /\
  counts_per_force self = Some cf /\ counts_per_torque self = Some ct /\
  scaling_factors_F self = sF /\ scaling_factors_T self = sT.

(** The object once a method has called [sendall] and gone no further. *)
Definition after_sendall (message : bytes) (self : ATIForceTorqueSensor)
  : ATIForceTorqueSensor :=
  set_sock (record_call (call_sendall message) (sock self)) self.

(** The two commands of the protocol. *)
Definition read_sample_command : bytes := repeat x00 20.
Definition read_calibration_command : bytes := x01 :: repeat x00 19.

(** A vector of three floats. *)
Definition three_floats (V : list pynum) (x0 x1 x2 : float) : Prop :=
  V = [PyFloat x0; PyFloat x1; PyFloat x2].

(** ** A field of a response that may be cut short *)

(** The big-endian value of the [n] bytes of a frame that start at
    offset [off]: the first byte has the weight [256^(n-1)]. *)
Fixpoint be_value (data : bytes) (off n : nat) : Z :=
  match n with
  | O => 0
  | S m => byte_at data off * 256 ^ Z.of_nat m + be_value data (S off) m
  end.

(** The signed field of [w] bytes at offset [off], read from the bytes of
    it that the frame has: with [n] of the [w] bytes present it is the
    two's complement value, on [8 * n] bits, of these [n] bytes, and 0
    when none is present. *)
Definition field_present (data : bytes) (off w : nat) : Z :=
  let n := Nat.min w (List.length data - off) in
  if (n =? 0)%nat then 0 else sint (8 * Z.of_nat n) (be_value data off n).

Definition one : float := S754_finite false 4503599627370496 (-52).
Definition quarter : float := S754_finite false 4503599627370496 (-54).

Example int_from_bytes_1000 : int_from_bytes_signed [x03; xe8] = 1000.
Proof. reflexivity. Qed.

Example int_from_bytes_neg : int_from_bytes_signed [xff; xfe] = -2.
Proof. reflexivity. Qed.

Example py_truediv_one : py_truediv (100 * 10) 1000 = Returned one.
Proof. vm_compute. reflexivity. Qed.

Example py_truediv_quarter : py_truediv (50 * 5) 1000 = Returned quarter.
Proof. vm_compute. reflexivity. Qed.

Example construct_command_01 :
  _construct_command "01" = Returned (x01 :: repeat x00 19).
Proof. reflexivity. Qed.

Example calibrated_sensor_fields :
  calibrated_sensor =
  mk_sensor true
    (mk_socket false
       [call_connect; call_settimeout; call_sendall (x01 :: repeat x00 19);
        call_recv 1024])
    [PyInt 0; PyInt 0; PyInt 0] [PyInt 0; PyInt 0; PyInt 0]
    [10; 10; 10] [5; 5; 5] (Some 1) (Some 2) (Some 1000) (Some 1000).
Proof. vm_compute. reflexivity. Qed.

Example get_data_raw_sample :
  fst (get_data true (answers sample_frame) calibrated_sensor) =
  Returned (Some [PyFloat one; PyFloat one; PyFloat one],
            Some [PyFloat quarter; PyFloat quarter; PyFloat quarter]).
Proof. vm_compute. reflexivity. Qed.

(** ** Float arithmetic: true division of small ints never overflows *)

Section FloatFacts.

Local Notation "'fexp'" := (SpecFloat.fexp prec emax).

Lemma digits2_pos_size (p : positive) : digits2_pos p = Pos.size p.
Proof. induction p; simpl; congruence. Qed.

Lemma Zdigits2_log2 (p : positive) : Zdigits2 (Zpos p) = Z.log2 (Zpos p) + 1.
Proof.
  destruct p; simpl; rewrite ?digits2_pos_size; lia.
Qed.

(** A mantissa below [2^k] has at most [k] digits. *)
Lemma Zdigits2_le_of_lt_pow2 (m k : Z) :
  0 <= m < 2 ^ k -> 0 <= k -> Zdigits2 m <= k.
Proof.
  intros [Hm Hlt] Hk.
  destruct m as [|p|p]; [simpl; lia| |lia].
  rewrite Zdigits2_log2.
  assert (Z.log2 (Zpos p) < k) by (apply Z.log2_lt_pow2; lia).
  lia.
Qed.

Lemma fexp_le (d : Z) (b : Z) : d - 53 <= b -> -1074 <= b -> fexp d <= b.
Proof. unfold SpecFloat.fexp, emin, prec, emax. lia. Qed.

Lemma shr_1_m (mrs : shr_record) :
  0 <= shr_m mrs -> shr_m (shr_1 mrs) = shr_m mrs / 2.
Proof.
  destruct mrs as [m r s]. simpl. intros Hm.
  destruct m as [|[p|p|]|p]; simpl; try lia; try reflexivity.
  - apply Z.div_unique with (r := 1); lia.
  - apply Z.div_unique with (r := 0); lia.
Qed.

Lemma iter_shr_1_m (p : positive) : forall mrs,
  0 <= shr_m mrs ->
  shr_m (iter_pos shr_1 p mrs) = shr_m mrs / 2 ^ Zpos p.
Proof.
  assert (Hstep : forall mrs, 0 <= shr_m mrs -> 0 <= shr_m (shr_1 mrs)).
  { intros mrs H. rewrite shr_1_m by assumption. apply Z.div_pos; lia. }
  induction p as [p IH|p IH|]; intros mrs Hm; simpl iter_pos;
    try assert (Hp : 0 < 2 ^ Zpos p) by (apply Z.pow_pos_nonneg; lia).
  - rewrite IH.
    + rewrite IH by (apply Hstep; assumption).
      rewrite shr_1_m by assumption.
      rewrite !Z.div_div by lia.
      f_equal. replace (Zpos p~1) with (1 + Zpos p + Zpos p) by lia.
      rewrite !Z.pow_add_r by lia. ring.
    + rewrite IH by (apply Hstep; assumption).
      apply Z.div_pos; [apply Hstep; assumption | apply Z.pow_pos_nonneg; lia].
  - rewrite IH.
    + rewrite IH by assumption.
      rewrite Z.div_div by lia.
      f_equal. replace (Zpos p~0) with (Zpos p + Zpos p) by lia.
      rewrite Z.pow_add_r by lia. ring.
    + rewrite IH by assumption.
      apply Z.div_pos; [assumption | apply Z.pow_pos_nonneg; lia].
  - rewrite shr_1_m by assumption. reflexivity.
Qed.

Lemma shr_record_of_loc_m (m : Z) (l : location) :
  shr_m (shr_record_of_loc m l) = m.
Proof. destruct l as [|[ | | ]]; reflexivity. Qed.

(** Dividing a mantissa below [2^k] by [2^n] leaves one below
    [2^(max 0 (k - n))]. *)
Lemma div_pow2_lt (m k n : Z) :
  0 <= m < 2 ^ k -> 0 <= k -> 0 < n ->
  0 <= m / 2 ^ n < 2 ^ Z.max 0 (k - n).
Proof.
  intros [Hm Hlt] Hk Hn.
  assert (Hpn : 0 < 2 ^ n) by (apply Z.pow_pos_nonneg; lia).
  split; [apply Z.div_pos; lia|].
  apply Z.div_lt_upper_bound; [assumption|].
  destruct (Z.le_gt_cases n k) as [Hle|Hgt].
  - rewrite Z.max_r by lia.
    rewrite <- Z.pow_add_r by lia.
    replace (n + (k - n)) with k by lia. assumption.
  - rewrite Z.max_l by lia. rewrite Z.pow_0_r, Z.mul_1_r.
    apply Z.lt_trans with (2 ^ k); [assumption|].
    apply Z.pow_lt_mono_r; lia.
Qed.

(** What one [shr_fexp] does to the bounds of a mantissa and its
    exponent. *)
Lemma shr_fexp_bounds (m e : Z) (l : location) (k : Z) :
  0 <= m < 2 ^ k -> 0 <= k ->
  exists m2 e2 k2,
    shr_m (fst (shr_fexp prec emax m e l)) = m2 /\
    snd (shr_fexp prec emax m e l) = e2 /\
    0 <= m2 < 2 ^ k2 /\ 0 <= k2 /\
    e2 <= Z.max e (Z.max (k + e - 53) (-1074)) /\
    k2 + e2 <= Z.max (k + e) e2.
Proof.
  intros Hm Hk.
  assert (Hd := Zdigits2_le_of_lt_pow2 m k Hm Hk).
  unfold shr_fexp, shr.
  destruct (fexp (Zdigits2 m + e) - e) as [|n|n] eqn:Hn.
  - exists m, e, k. simpl fst. simpl snd. rewrite shr_record_of_loc_m.
    repeat split; try lia.
  - exists (m / 2 ^ Zpos n), (e + Zpos n), (Z.max 0 (k - Zpos n)).
    simpl fst. simpl snd.
    rewrite iter_shr_1_m by (rewrite shr_record_of_loc_m; lia).
    rewrite shr_record_of_loc_m.
    assert (Hb := div_pow2_lt m k (Zpos n) Hm Hk ltac:(lia)).
    assert (Hf : fexp (Zdigits2 m + e) <= Z.max (k + e - 53) (-1074))
      by (apply fexp_le; lia).
    repeat split; try lia.
  - exists m, e, k. simpl fst. simpl snd. rewrite shr_record_of_loc_m.
    repeat split; try lia.
Qed.

Lemma round_nearest_even_bounds (m : Z) (l : location) :
  m <= round_nearest_even m l <= m + 1.
Proof.
  destruct l as [|[ | | ]]; simpl; try lia.
  destruct (Z.even m); lia.
Qed.

(** Rounding a mantissa whose value is far below the largest float gives
    a zero or a finite float. *)
Lemma binary_round_aux_finite (sx : bool) (m e : Z) (l : location) (k : Z) :
  0 <= m < 2 ^ k -> 0 <= k -> e <= 900 -> k + e <= 1000 ->
  is_finite (binary_round_aux prec emax sx m e l) = true.
Proof.
  intros Hm Hk He Hke.
  unfold binary_round_aux.
  destruct (shr_fexp_bounds m e l k Hm Hk)
    as (m1 & e1 & k1 & Hm1 & He1 & Hb1 & Hk1 & Hle1 & Hs1).
  destruct (shr_fexp prec emax m e l) as [mrs1 e1'] eqn:E1.
  simpl in Hm1, He1. subst e1'.
  set (r := round_nearest_even (shr_m mrs1) (loc_of_shr_record mrs1)).
  assert (Hr : 0 <= r < 2 ^ (k1 + 1)).
  { pose proof (round_nearest_even_bounds (shr_m mrs1) (loc_of_shr_record mrs1)) as Hrb.
    fold r in Hrb. rewrite Hm1 in Hrb.
    rewrite Z.pow_add_r, Z.pow_1_r by lia. lia. }
  destruct (shr_fexp_bounds r e1 loc_Exact (k1 + 1) Hr ltac:(lia))
    as (m2 & e2 & k2 & Hm2 & He2 & Hb2 & Hk2 & Hle2 & Hs2).
  destruct (shr_fexp prec emax r e1 loc_Exact) as [mrs2 e2'] eqn:E2.
  simpl in Hm2, He2. subst e2'. rewrite Hm2.
  destruct m2 as [|p|p]; [reflexivity| |lia].
  replace (e2 <=? emax - prec) with true; [reflexivity|].
  symmetry. apply Z.leb_le. unfold emax, prec. lia.
Qed.

(** The quotient of two floats with exponent 0 whose dividend is below
    [2^53] is finite. *)
Lemma float_div_exact_int_finite (a b : Z) :
  Z.abs a < 2 ^ 53 -> b <> 0 ->
  is_finite (float_div (exact_int a) (exact_int b)) = true.
Proof.
  intros Ha Hb.
  assert (Hcore : forall sa sb ma mb, Zpos ma < 2 ^ 53 ->
            is_finite (float_div (S754_finite sa ma 0) (S754_finite sb mb 0)) = true).
  { intros sa sb ma mb Hma.
    unfold float_div, SFdiv, SFdiv_core_binary.
    set (e' := Z.min (fexp (Zdigits2 (Zpos ma) + 0 - (Zdigits2 (Zpos mb) + 0))) (0 - 0)).
    assert (He' : e' <= 0) by (unfold e'; lia).
    set (s := 0 - 0 - e').
    set (m' := match s with Z0 => Zpos ma | Zpos _ => Z.shiftl (Zpos ma) s | Zneg _ => 0 end).
    assert (Hm' : 0 <= m' < 2 ^ (53 + s)).
    { assert (Hs : 0 <= s) by (unfold s; lia).
      unfold m'. destruct s as [|ps|ps] eqn:Es; [rewrite Z.add_0_r; lia| |lia].
      rewrite Z.shiftl_mul_pow2 by lia.
      rewrite Z.pow_add_r by lia.
      assert (0 < 2 ^ Zpos ps) by (apply Z.pow_pos_nonneg; lia).
      nia. }
    pose proof (Z_div_mod m' (Zpos mb) ltac:(lia)) as Hdiv.
    destruct (Z.div_eucl m' (Zpos mb)) as [q r] eqn:Eqr.
    destruct Hdiv as [Hq Hr].
    apply binary_round_aux_finite with (k := 53 + s); unfold s in *; try lia.
    nia. }
  destruct a as [|pa|pa], b as [|pb|pb]; try contradiction; try reflexivity;
    simpl exact_int; apply Hcore; simpl in Ha; lia.
Qed.

(** A finite float minus itself is [+0.0]. *)
Lemma float_sub_diag (x : float) :
  is_finite x = true -> float_sub x x = pos_zero.
Proof.
  destruct x as [s|s| |s m e]; simpl; try discriminate; intros _.
  - destruct s; reflexivity.
  - unfold float_sub, SFsub. rewrite Z.sub_diag. reflexivity.
Qed.

End FloatFacts.

(** True division of a dividend below [2^53] by a non-zero int returns a
    finite float. *)
Lemma py_truediv_returns (a b : Z) :
  Z.abs a < 2 ^ 53 -> b <> 0 ->
  py_truediv a b = Returned (float_div (exact_int a) (exact_int b)).
Proof.
  intros Ha Hb. unfold py_truediv.
  destruct (Z.eqb_spec b 0) as [|_]; [contradiction|].
  rewrite float_div_exact_int_finite by assumption. reflexivity.
Qed.

Lemma py_truediv_finite (a b : Z) (x : float) :
  py_truediv a b = Returned x -> is_finite x = true.
Proof.
  unfold py_truediv. destruct (b =? 0); [discriminate|].
  destruct (is_finite _) eqn:E; [|discriminate].
  intros H. injection H as <-. exact E.
Qed.

(** ** Bytes and big-endian fields *)

Lemma byte_val_range (b : byte) : 0 <= byte_val b < 256.
Proof.
  unfold byte_val. pose proof (Byte.to_N_bounded b) as H. lia.
Qed.

Lemma int_from_bytes_signed_1 (a : byte) :
  int_from_bytes_signed [a] = sint 8 (byte_val a).
Proof.
  pose proof (byte_val_range a).
  unfold int_from_bytes_signed, be_unsigned, sint. simpl fold_left. simpl List.length.
  change (2 ^ (8 * Z.of_nat 1)) with 256. change (2 ^ (8 - 1)) with 128.
  change (2 ^ 8) with 256.
  destruct (Z.leb_spec 128 (byte_val a)), (Z.ltb_spec (byte_val a) 128); lia.
Qed.

Lemma int_from_bytes_signed_2 (a b : byte) :
  int_from_bytes_signed [a; b] = sint 16 (byte_val a * 2 ^ 8 + byte_val b).
Proof.
  pose proof (byte_val_range a). pose proof (byte_val_range b).
  unfold int_from_bytes_signed, be_unsigned, sint. simpl fold_left. simpl List.length.
  change (2 ^ (8 * Z.of_nat 2)) with 65536. change (2 ^ (16 - 1)) with 32768.
  change (2 ^ 16) with 65536. change (2 ^ 8) with 256.
  destruct (Z.leb_spec 128 (byte_val a)),
           (Z.ltb_spec (byte_val a * 256 + byte_val b) 32768); lia.
Qed.

Lemma int_from_bytes_signed_4 (a b c d : byte) :
  int_from_bytes_signed [a; b; c; d] =
  sint 32 (byte_val a * 2 ^ 24 + byte_val b * 2 ^ 16 + byte_val c * 2 ^ 8 + byte_val d).
Proof.
  pose proof (byte_val_range a). pose proof (byte_val_range b).
  pose proof (byte_val_range c). pose proof (byte_val_range d).
  unfold int_from_bytes_signed, be_unsigned, sint. simpl fold_left. simpl List.length.
  change (2 ^ (8 * Z.of_nat 4)) with 4294967296. change (2 ^ (32 - 1)) with 2147483648.
  change (2 ^ 32) with 4294967296. change (2 ^ 24) with 16777216.
  change (2 ^ 16) with 65536. change (2 ^ 8) with 256.
  destruct (Z.leb_spec 128 (byte_val a)),
           (Z.ltb_spec (byte_val a * 16777216 + byte_val b * 65536
                        + byte_val c * 256 + byte_val d) 2147483648); lia.
Qed.

(** The product of two 16-bit values is far below [2^53]. *)
Lemma int16_product_small (r s : Z) : int16 r -> int16 s -> Z.abs (r * s) < 2 ^ 53.
Proof.
  unfold int16. change (2 ^ 15) with 32768. change (2 ^ 53) with 9007199254740992.
  intros Hr Hs. rewrite Z.abs_mul.
  assert (Z.abs r <= 32768) by lia. assert (Z.abs s <= 32768) by lia.
  assert (Z.abs r * Z.abs s <= 32768 * 32768) by (apply Z.mul_le_mono_nonneg; lia).
  lia.
Qed.

Arguments int_from_bytes_signed : simpl never.
Arguments byte_val : simpl never.

(** ** List item assignment *)

Lemma py_setitem_then {A : Type} (l : list A) (i : nat) (a : A) (l1 : list A) :
  py_setitem l i a = Returned l1 ->
  py_index l1 i = Returned a /\ forall c, py_setitem l1 i c = py_setitem l i c.
Proof.
  revert i l1. induction l as [|h t IH]; intros i l1 H; [discriminate|].
  destruct i as [|j]; simpl in H.
  - injection H as <-. split; reflexivity.
  - destruct (py_setitem t j a) as [t1|e] eqn:E; [|discriminate].
    injection H as <-. destruct (IH j t1 E) as [Hi Hs].
    split.
    + unfold py_index in *. simpl. exact Hi.
    + intros c. simpl. rewrite Hs. reflexivity.
Qed.

Lemma py_setitem_total {A : Type} (l : list A) (i : nat) (a b : A) (l1 : list A) :
  py_setitem l i a = Returned l1 -> exists l2, py_setitem l i b = Returned l2.
Proof.
  revert i l1. induction l as [|h t IH]; intros i l1 H; [discriminate|].
  destruct i as [|j]; simpl in *.
  - eexists; reflexivity.
  - destruct (py_setitem t j a) as [t1|e] eqn:E; [|discriminate].
    destruct (IH j t1 E) as [t2 ->]. eexists; reflexivity.
Qed.

(** ** One axis of a conversion loop *)

Lemma py_sub_float (x : float) (b : pynum) (f : float) :
  as_float b = Returned f -> py_sub (PyFloat x) b = Returned (PyFloat (float_sub x f)).
Proof.
  intros H. unfold py_sub. destruct b; simpl as_float at 1; rewrite H; reflexivity.
Qed.

(** [convert_axis] never writes to [self]. *)
Lemma convert_axis_self raw data OFF sc cn bias i V self :
  snd (convert_axis raw data OFF sc cn bias i V self) = self.
Proof.
  unfold convert_axis, bind, attr, lift, operand, ret, raise.
  destruct (py_index (sc self) i); [|reflexivity].
  destruct (cn self); [|reflexivity]. simpl.
  destruct (py_truediv _ _); [|reflexivity].
  destruct (py_setitem V i _); [|reflexivity].
  destruct raw; simpl; [reflexivity|].
  destruct (py_index _ i); [|reflexivity].
  destruct (py_index (bias self) i); [|reflexivity].
  destruct (py_sub _ _); reflexivity.
Qed.

(** The axis that converts: the item [i] of the vector becomes the
    physical value. *)
Lemma convert_axis_returns raw data OFF sc cn bias i V self s d x f V' :
  py_index (sc self) i = Returned s ->
  cn self = Some d ->
  py_truediv (raw_value data OFF i * s) d = Returned x ->
  (raw = false -> bias_at (bias self) i f) ->
  py_setitem V i (PyFloat (if raw then x else float_sub x f)) = Returned V' ->
  convert_axis raw data OFF sc cn bias i V self = (Returned V', self).
Proof.
  intros Hs Hd Hx Hb HV. unfold raw_value in Hx.
  unfold convert_axis, bind, attr, lift, operand, ret, raise.
  rewrite Hs, Hd. simpl. rewrite Hx.
  destruct raw; simpl.
  - rewrite HV. reflexivity.
  - destruct (Hb eq_refl) as (b & Hib & Hfb).
    destruct (py_setitem_total V i _ (PyFloat x) V' HV) as [V1 HV1].
    rewrite HV1. destruct (py_setitem_then V i _ V1 HV1) as [Hi1 Hs1].
    rewrite Hi1, Hib. rewrite (py_sub_float x b f Hfb). rewrite Hs1, HV. reflexivity.
Qed.

(** What a converted axis of a raw read went through. *)
Lemma convert_axis_raw_inv data OFF sc cn bias i V self V' :
  fst (convert_axis true data OFF sc cn bias i V self) = Returned V' ->
  exists s d x,
    py_index (sc self) i = Returned s /\
    cn self = Some d /\
    py_truediv (raw_value data OFF i * s) d = Returned x /\
    py_setitem V i (PyFloat x) = Returned V'.
Proof.
  unfold raw_value, convert_axis, bind, attr, lift, operand, ret, raise.
  destruct (py_index (sc self) i) as [s|] eqn:Es; [|discriminate].
  destruct (cn self) as [d|] eqn:Ed; [|discriminate]. simpl.
  destruct (py_truediv _ _) as [x|] eqn:Ex; [|discriminate].
  destruct (py_setitem V i _) as [V1|] eqn:EV; [|discriminate].
  simpl. intros H. injection H as <-.
  exists s, d, x. repeat split; assumption.
Qed.

(** In a raw read the outcome of an axis does not depend on the bias. *)
Lemma convert_axis_raw_bias data OFF sc cn bias1 bias2 i V self1 self2 :
  sc self1 = sc self2 -> cn self1 = cn self2 ->
  fst (convert_axis true data OFF sc cn bias1 i V self1) =
  fst (convert_axis true data OFF sc cn bias2 i V self2).
Proof.
  intros Hs Hc.
  unfold convert_axis, bind, attr, lift, operand, ret, raise.
  rewrite Hs, Hc.
  destruct (py_index (sc self2) i); [|reflexivity].
  destruct (cn self2); [|reflexivity]. simpl.
  destruct (py_truediv _ _); [|reflexivity].
  destruct (py_setitem V i _); reflexivity.
Qed.

Arguments convert_axis : simpl never.
Arguments py_truediv : simpl never.

(** ** A conversion loop over the three axes *)

Lemma for_in_3 {A : Type} (body : nat -> A -> M A) (acc : A) (self : ATIForceTorqueSensor) :
  for_in (seq 0 3) body acc self =
  (a0 <- body 0%nat acc ;; a1 <- body 1%nat a0 ;; a2 <- body 2%nat a1 ;; ret a2) self.
Proof. reflexivity. Qed.

Lemma convert_loop_self raw data OFF sc cn bias idx : forall V self,
  snd (for_in idx (convert_axis raw data OFF sc cn bias) V self) = self.
Proof.
  induction idx as [|i rest IH]; intros V self; [reflexivity|].
  simpl for_in. unfold bind.
  pose proof (convert_axis_self raw data OFF sc cn bias i V self) as Hs.
  destruct (convert_axis raw data OFF sc cn bias i V self) as [[V1|e] self1];
    simpl in Hs; subst self1; [apply IH | reflexivity].
Qed.

(** The loop that converts all three axes. *)
Lemma convert_loop_returns raw data OFF sc cn bias self d
    s0 s1 s2 x0 x1 x2 f0 f1 f2 v0 v1 v2 :
  py_index (sc self) 0 = Returned s0 ->
  py_index (sc self) 1 = Returned s1 ->
  py_index (sc self) 2 = Returned s2 ->
  cn self = Some d ->
  py_truediv (raw_value data OFF 0 * s0) d = Returned x0 ->
  py_truediv (raw_value data OFF 1 * s1) d = Returned x1 ->
  py_truediv (raw_value data OFF 2 * s2) d = Returned x2 ->
  (raw = false ->
   bias_at (bias self) 0 f0 /\ bias_at (bias self) 1 f1 /\ bias_at (bias self) 2 f2) ->
  for_in (seq 0 3) (convert_axis raw data OFF sc cn bias) [v0; v1; v2] self =
  (Returned [PyFloat (if raw then x0 else float_sub x0 f0);
             PyFloat (if raw then x1 else float_sub x1 f1);
             PyFloat (if raw then x2 else float_sub x2 f2)], self).
Proof.
  intros H0 H1 H2 Hd Hx0 Hx1 Hx2 Hb.
  rewrite for_in_3. unfold bind at 1.
  rewrite (convert_axis_returns raw data OFF sc cn bias 0 [v0; v1; v2] self s0 d x0 f0
             [PyFloat (if raw then x0 else float_sub x0 f0); v1; v2]);
    [ | assumption | assumption | assumption | intros Hr; apply Hb, Hr | reflexivity ].
  unfold bind at 1.
  rewrite (convert_axis_returns raw data OFF sc cn bias 1 _ self s1 d x1 f1
             [PyFloat (if raw then x0 else float_sub x0 f0);
              PyFloat (if raw then x1 else float_sub x1 f1); v2]);
    [ | assumption | assumption | assumption | intros Hr; apply Hb, Hr | reflexivity ].
  unfold bind at 1.
  rewrite (convert_axis_returns raw data OFF sc cn bias 2 _ self s2 d x2 f2
             [PyFloat (if raw then x0 else float_sub x0 f0);
              PyFloat (if raw then x1 else float_sub x1 f1);
              PyFloat (if raw then x2 else float_sub x2 f2)]);
    [ | assumption | assumption | assumption | intros Hr; apply Hb, Hr | reflexivity ].
  reflexivity.
Qed.

(** What a raw loop that returned went through. *)
Lemma convert_loop_raw_inv data OFF sc cn bias self v0 v1 v2 V' :
  fst (for_in (seq 0 3) (convert_axis true data OFF sc cn bias) [v0; v1; v2] self)
    = Returned V' ->
  exists d s0 s1 s2 x0 x1 x2,
    py_index (sc self) 0 = Returned s0 /\
    py_index (sc self) 1 = Returned s1 /\
    py_index (sc self) 2 = Returned s2 /\
    cn self = Some d /\
    py_truediv (raw_value data OFF 0 * s0) d = Returned x0 /\
    py_truediv (raw_value data OFF 1 * s1) d = Returned x1 /\
    py_truediv (raw_value data OFF 2 * s2) d = Returned x2 /\
    V' = [PyFloat x0; PyFloat x1; PyFloat x2].
Proof.
  rewrite for_in_3. unfold bind, ret.
  pose proof (convert_axis_self true data OFF sc cn bias 0 [v0; v1; v2] self) as Hs0.
  destruct (convert_axis true data OFF sc cn bias 0 [v0; v1; v2] self)
    as [[V0|e0] self0] eqn:E0; [|discriminate].
  simpl in Hs0. subst self0.
  apply (f_equal fst) in E0. simpl fst in E0.
  apply convert_axis_raw_inv in E0. destruct E0 as (s0 & d0 & x0 & Hi0 & Hd0 & Hx0 & HV0).
  simpl in HV0. injection HV0 as <-.
  pose proof (convert_axis_self true data OFF sc cn bias 1 [PyFloat x0; v1; v2] self) as Hs1.
  destruct (convert_axis true data OFF sc cn bias 1 [PyFloat x0; v1; v2] self)
    as [[V1|e1] self1] eqn:E1; [|discriminate].
  simpl in Hs1. subst self1.
  apply (f_equal fst) in E1. simpl fst in E1.
  apply convert_axis_raw_inv in E1. destruct E1 as (s1 & d1 & x1 & Hi1 & Hd1 & Hx1 & HV1).
  simpl in HV1. injection HV1 as <-.
  pose proof (convert_axis_self true data OFF sc cn bias 2
                [PyFloat x0; PyFloat x1; v2] self) as Hs2.
  destruct (convert_axis true data OFF sc cn bias 2 [PyFloat x0; PyFloat x1; v2] self)
    as [[V2|e2] self2] eqn:E2; [|discriminate].
  simpl in Hs2. subst self2.
  apply (f_equal fst) in E2. simpl fst in E2.
  apply convert_axis_raw_inv in E2. destruct E2 as (s2 & d2 & x2 & Hi2 & Hd2 & Hx2 & HV2).
  simpl in HV2. injection HV2 as <-.
  simpl. intros H. injection H as <-.
  assert (d1 = d0) by congruence. assert (d2 = d0) by congruence. subst d1 d2.
  exists d0, s0, s1, s2, x0, x1, x2. repeat split; assumption.
Qed.

(** A raw loop does not look at the bias. *)
Lemma convert_loop_raw_bias data OFF sc cn bias1 bias2 idx self1 self2 :
  sc self1 = sc self2 -> cn self1 = cn self2 ->
  forall V,
    fst (for_in idx (convert_axis true data OFF sc cn bias1) V self1) =
    fst (for_in idx (convert_axis true data OFF sc cn bias2) V self2).
Proof.
  intros Hs Hc. induction idx as [|i rest IH]; intros V; [reflexivity|].
  simpl for_in. unfold bind.
  pose proof (convert_axis_raw_bias data OFF sc cn bias1 bias2 i V self1 self2 Hs Hc) as Hf.
  pose proof (convert_axis_self true data OFF sc cn bias1 i V self1) as H1.
  pose proof (convert_axis_self true data OFF sc cn bias2 i V self2) as H2.
  destruct (convert_axis true data OFF sc cn bias1 i V self1) as [o1 t1].
  destruct (convert_axis true data OFF sc cn bias2 i V self2) as [o2 t2].
  simpl in Hf, H1, H2. subst o2 t1 t2.
  destruct o1; [apply IH | reflexivity].
Qed.

Arguments for_in : simpl never.

(** ** [get_data] step by step *)

Lemma get_data_not_connected raw net self :
  connected self = false -> get_data raw net self = (Returned (None, None), self).
Proof.
  intros Hc. unfold get_data, bind, attr. rewrite Hc. reflexivity.
Qed.

(** A connected object whose read command is answered runs the two loops
    on the bytes received, in the object whose socket recorded the two
    calls. *)
Lemma get_data_connected raw net data self :
  connected self = true ->
  closed (sock self) = false ->
  sendall_answer net = Returned tt ->
  recv_answer net = Returned data ->
  get_data raw net self =
  try_except_timeout
    (F <- for_in (seq 0 3)
            (convert_axis raw (firstn BUFFER_SIZE data) F_BYTE_OFFSET
               scaling_factors_F counts_per_force F_bias)
            [PyInt 0; PyInt 0; PyInt 0] ;;
     T <- for_in (seq 0 3)
            (convert_axis raw (firstn BUFFER_SIZE data) T_BYTE_OFFSET
               scaling_factors_T counts_per_torque T_bias)
            [PyInt 0; PyInt 0; PyInt 0] ;;
     ret (Some F, Some T))
    (ret (None, None))
    (after_exchange self).
Proof.
  intros Hc Hs Hsa Hra.
  destruct self as [c [cl cs] fb tb sf st fu tu cf ct].
  destruct net as [sa ra]. simpl in Hc, Hs, Hsa, Hra. subst c cl sa ra.
  reflexivity.
Qed.

(** The other ways through [get_data]. *)
Lemma get_data_closed raw net self :
  connected self = true -> closed (sock self) = true ->
  fst (get_data raw net self) = Raised OSError.
Proof.
  intros Hc Hs.
  destruct self as [c [cl cs] fb tb sf st fu tu cf ct].
  simpl in Hc, Hs. subst c cl. reflexivity.
Qed.

Lemma get_data_send_fails raw net self e :
  connected self = true -> closed (sock self) = false ->
  sendall_answer net = Raised e ->
  fst (get_data raw net self) = Raised e.
Proof.
  intros Hc Hs Hsa.
  destruct self as [c [cl cs] fb tb sf st fu tu cf ct].
  destruct net as [sa ra]. simpl in Hc, Hs, Hsa. subst c cl sa. reflexivity.
Qed.

Lemma get_data_recv_fails raw net self e :
  connected self = true -> closed (sock self) = false ->
  sendall_answer net = Returned tt ->
  recv_answer net = Raised e ->
  fst (get_data raw net self) =
  match e with socket_timeout => Returned (None, None) | _ => Raised e end.
Proof.
  intros Hc Hs Hsa Hra.
  destruct self as [c [cl cs] fb tb sf st fu tu cf ct].
  destruct net as [sa ra]. simpl in Hc, Hs, Hsa, Hra. subst c cl sa ra.
  destruct e; reflexivity.
Qed.

(** A raw read that returned two vectors was connected, was answered,
    and both loops returned. *)
Lemma get_data_raw_inv net self F T :
  fst (get_data true net self) = Returned (Some F, Some T) ->
  connected self = true /\ closed (sock self) = false /\
  sendall_answer net = Returned tt /\
  exists data,
    recv_answer net = Returned data /\
    get_data true net self = (Returned (Some F, Some T), after_exchange self) /\
    fst (for_in (seq 0 3)
           (convert_axis true (firstn BUFFER_SIZE data) F_BYTE_OFFSET
              scaling_factors_F counts_per_force F_bias)
           [PyInt 0; PyInt 0; PyInt 0] (after_exchange self)) = Returned F /\
    fst (for_in (seq 0 3)
           (convert_axis true (firstn BUFFER_SIZE data) T_BYTE_OFFSET
              scaling_factors_T counts_per_torque T_bias)
           [PyInt 0; PyInt 0; PyInt 0] (after_exchange self)) = Returned T.
Proof.
  intros H.
  destruct (connected self) eqn:Hc;
    [|rewrite get_data_not_connected in H by assumption; discriminate].
  destruct (closed (sock self)) eqn:Hs;
    [rewrite get_data_closed in H by assumption; discriminate|].
  destruct (sendall_answer net) as [[]|e] eqn:Hsa;
    [|rewrite (get_data_send_fails true net self e) in H by assumption; discriminate].
  destruct (recv_answer net) as [data|e] eqn:Hra;
    [|rewrite (get_data_recv_fails true net self e) in H by assumption;
      destruct e; discriminate].
  repeat split. exists data. split; [reflexivity|].
  rewrite (get_data_connected true net data self) in * by assumption.
  unfold try_except_timeout, bind, ret in *.
  pose proof (convert_loop_self true (firstn BUFFER_SIZE data) F_BYTE_OFFSET
                scaling_factors_F counts_per_force F_bias (seq 0 3)
                [PyInt 0; PyInt 0; PyInt 0] (after_exchange self)) as HsF.
  destruct (for_in (seq 0 3) (convert_axis true _ F_BYTE_OFFSET _ _ _) _ _)
    as [[F1|e1] self1]; simpl in HsF; subst self1;
    [|destruct e1; discriminate].
  pose proof (convert_loop_self true (firstn BUFFER_SIZE data) T_BYTE_OFFSET
                scaling_factors_T counts_per_torque T_bias (seq 0 3)
                [PyInt 0; PyInt 0; PyInt 0] (after_exchange self)) as HsT.
  destruct (for_in (seq 0 3) (convert_axis true _ T_BYTE_OFFSET _ _ _) _ _)
    as [[T1|e2] self2]; simpl in HsT; subst self2;
    [|destruct e2; discriminate].
  simpl in H. injection H as <- <-. repeat split.
Qed.

(** [get_data] returns both vectors or neither. *)
Lemma get_data_outcomes raw net self :
  fst (get_data raw net self) = Returned (None, None) \/
  (exists e, fst (get_data raw net self) = Raised e) \/
  (exists F T, fst (get_data raw net self) = Returned (Some F, Some T)).
Proof.
  destruct (connected self) eqn:Hc;
    [|left; rewrite get_data_not_connected by assumption; reflexivity].
  destruct (closed (sock self)) eqn:Hs;
    [right; left; eexists; apply get_data_closed; assumption|].
  destruct (sendall_answer net) as [[]|e] eqn:Hsa;
    [|right; left; exists e; apply get_data_send_fails; assumption].
  destruct (recv_answer net) as [data|e] eqn:Hra.
  - rewrite (get_data_connected raw net data self) by assumption.
    unfold try_except_timeout, bind, ret.
    destruct (for_in (seq 0 3) (convert_axis raw _ F_BYTE_OFFSET _ _ _) _ _)
      as [[F1|e1] self1].
    + destruct (for_in (seq 0 3) (convert_axis raw _ T_BYTE_OFFSET _ _ _) _ _)
        as [[T1|e2] self2].
      * right; right. exists F1, T1. reflexivity.
      * destruct e2; simpl; first [left; reflexivity | right; left; eexists; reflexivity].
    + destruct e1; simpl; first [left; reflexivity | right; left; eexists; reflexivity].
  - rewrite (get_data_recv_fails raw net self e) by assumption.
    destruct e; first [left; reflexivity | right; left; eexists; reflexivity].
Qed.

(** ** Which attributes a method writes *)

Lemma same_but_sock_refl self : same_but_sock self self.
Proof. destruct self; reflexivity. Qed.

Lemma same_but_sock_trans a b c :
  same_but_sock a b -> same_but_sock b c -> same_but_sock a c.
Proof.
  unfold same_but_sock. intros Hab Hbc.
  destruct a, b, c. unfold set_sock in *. simpl in *. congruence.
Qed.

Lemma same_but_sock_set_sock s self : same_but_sock self (set_sock s self).
Proof. destruct self; reflexivity. Qed.

Lemma same_but_sock_fields a b :
  same_but_sock a b ->
  connected b = connected a /\ F_bias b = F_bias a /\ T_bias b = T_bias a /\
  same_calibration a b.
Proof.
  unfold same_but_sock, same_calibration. intros H. rewrite H.
  repeat split.
Qed.

Create HintDb frame.

Lemma wos_ret {A : Type} (a : A) : writes_only_sock (ret a).
Proof. intros self. apply same_but_sock_refl. Qed.

Lemma wos_raise {A : Type} (e : exn) : writes_only_sock (@raise A e).
Proof. intros self. apply same_but_sock_refl. Qed.

Lemma wos_lift {A : Type} (o : outcome A) : writes_only_sock (lift o).
Proof. intros self. apply same_but_sock_refl. Qed.

Lemma wos_attr {A : Type} (f : ATIForceTorqueSensor -> A) : writes_only_sock (attr f).
Proof. intros self. apply same_but_sock_refl. Qed.

Lemma wos_operand {A : Type} (o : option A) : writes_only_sock (operand o).
Proof. destruct o; intros self; apply same_but_sock_refl. Qed.

Lemma wos_bind {A B : Type} (c : M A) (k : A -> M B) :
  writes_only_sock c -> (forall a, writes_only_sock (k a)) ->
  writes_only_sock (bind c k).
Proof.
  intros Hc Hk self. unfold bind. specialize (Hc self).
  destruct (c self) as [[a|e] self1]; simpl in *; [|assumption].
  eapply same_but_sock_trans; [eassumption | apply Hk].
Qed.

Lemma wos_try {A : Type} (body handler : M A) :
  writes_only_sock body -> writes_only_sock handler ->
  writes_only_sock (try_except_timeout body handler).
Proof.
  intros Hb Hh self. unfold try_except_timeout. specialize (Hb self).
  destruct (body self) as [[a|e] self1]; simpl in *; [assumption|].
  destruct e; simpl; try assumption.
  eapply same_but_sock_trans; [eassumption | apply Hh].
Qed.

Lemma wos_for_in {A : Type} (body : nat -> A -> M A) (idx : list nat) :
  (forall i acc, writes_only_sock (body i acc)) ->
  forall acc, writes_only_sock (for_in idx body acc).
Proof.
  intros Hb. induction idx as [|i rest IH]; intros acc.
  - apply wos_ret.
  - apply wos_bind; [apply Hb | apply IH].
Qed.

Lemma wos_sock_sendall net message : writes_only_sock (sock_sendall net message).
Proof. intros self. apply same_but_sock_set_sock. Qed.

Lemma wos_sock_recv net bufsize : writes_only_sock (sock_recv net bufsize).
Proof. intros self. apply same_but_sock_set_sock. Qed.

Lemma wos_sock_close : writes_only_sock sock_close.
Proof. intros self. apply same_but_sock_set_sock. Qed.

Lemma wos_convert_axis raw data OFF sc cn bias i V :
  writes_only_sock (convert_axis raw data OFF sc cn bias i V).
Proof.
  intros self. rewrite convert_axis_self. apply same_but_sock_refl.
Qed.

#[local] Hint Resolve wos_ret wos_raise wos_lift wos_attr wos_operand wos_sock_sendall
  wos_sock_recv wos_sock_close wos_convert_axis : frame.

Ltac frame_step :=
  first [ solve [auto with frame]
        | apply wos_bind; [|intros ?]
        | apply wos_try
        | apply wos_for_in; intros ? ?
        | match goal with
          | |- writes_only_sock (if ?b then _ else _) => destruct b
          end ].

Lemma wos_get_data raw net : writes_only_sock (get_data raw net).
Proof. unfold get_data. repeat frame_step. Qed.

(** [zero_sensor] writes the socket and the two bias lists, nothing
    else. *)
Lemma zero_sensor_keeps_calibration net self :
  connected (snd (zero_sensor net self)) = connected self /\
  same_calibration self (snd (zero_sensor net self)).
Proof.
  unfold zero_sensor, bind.
  pose proof (wos_get_data true net self) as Hg.
  apply same_but_sock_fields in Hg. destruct Hg as (Hc & _ & _ & Hcal).
  destruct (get_data true net self) as [[[F T]|e] self1]; simpl in *;
    [|split; assumption].
  unfold same_calibration in *.
  destruct F as [F|]; simpl; [|split; assumption].
  destruct T as [T|]; simpl; split; assumption.
Qed.

(** ** The raw counts of a frame *)

(** A raw count is read from at most two bytes. *)
Lemma raw_value_int16 (received : bytes) (OFF i : nat) :
  int16 (raw_value received OFF i).
Proof.
  unfold raw_value, py_slice.
  replace (OFF + i * 2 + 2 - (OFF + i * 2))%nat with 2%nat by lia.
  pose proof (firstn_le_length 2 (skipn (OFF + i * 2) received)) as Hl.
  destruct (firstn 2 (skipn (OFF + i * 2) received)) as [|a [|b [|c l]]];
    simpl in Hl; try lia.
  - unfold int16. change (int_from_bytes_signed []) with 0. lia.
  - rewrite int_from_bytes_signed_1. pose proof (byte_val_range a).
    unfold int16, sint. change (2 ^ (8 - 1)) with 128. change (2 ^ 8) with 256.
    change (2 ^ 15) with 32768.
    destruct (Z.ltb_spec (byte_val a) 128); lia.
  - rewrite int_from_bytes_signed_2.
    pose proof (byte_val_range a). pose proof (byte_val_range b).
    unfold int16, sint. change (2 ^ (16 - 1)) with 32768. change (2 ^ 16) with 65536.
    change (2 ^ 15) with 32768. change (2 ^ 8) with 256.
    destruct (Z.ltb_spec (byte_val a * 256 + byte_val b) 32768); lia.
Qed.

(** In a frame of 16 bytes or more the six raw counts are the 16-bit
    fields at offsets 4 to 14. *)
Lemma raw_value_be16 (data : bytes) :
  (16 <= List.length data)%nat ->
  raw_value (firstn BUFFER_SIZE data) F_BYTE_OFFSET 0 = be16 data 4 /\
  raw_value (firstn BUFFER_SIZE data) F_BYTE_OFFSET 1 = be16 data 6 /\
  raw_value (firstn BUFFER_SIZE data) F_BYTE_OFFSET 2 = be16 data 8 /\
  raw_value (firstn BUFFER_SIZE data) T_BYTE_OFFSET 0 = be16 data 10 /\
  raw_value (firstn BUFFER_SIZE data) T_BYTE_OFFSET 1 = be16 data 12 /\
  raw_value (firstn BUFFER_SIZE data) T_BYTE_OFFSET 2 = be16 data 14.
Proof.
  intros Hlen.
  do 16 (destruct data as [|? data]; [simpl in Hlen; lia|]).
  repeat split; apply int_from_bytes_signed_2.
Qed.

(** The conversion of one axis with in-range operands. *)
Lemma py_truediv_int16 (r s d : Z) :
  int16 r -> int16 s -> d <> 0 ->
  py_truediv (r * s) d = Returned (float_div (exact_int (r * s)) (exact_int d)).
Proof.
  intros Hr Hs Hd. apply py_truediv_returns; [|assumption].
  apply int16_product_small; assumption.
Qed.

(** An axis whose divisor is 0 raises the division's own exception. *)
Lemma convert_axis_zero_divisor raw data OFF sc cn bias i V self s :
  py_index (sc self) i = Returned s ->
  cn self = Some 0 ->
  convert_axis raw data OFF sc cn bias i V self = (Raised ZeroDivisionError, self).
Proof.
  intros Hs Hd. unfold convert_axis, bind, attr, lift, operand, ret.
  rewrite Hs, Hd. reflexivity.
Qed.

(** ** A read that returns *)

Lemma get_data_returns raw net data self dF dT
    sF0 sF1 sF2 sT0 sT1 sT2 xF0 xF1 xF2 xT0 xT1 xT2 fF0 fF1 fF2 fT0 fT1 fT2 :
  connected self = true ->
  closed (sock self) = false ->
  sendall_answer net = Returned tt ->
  recv_answer net = Returned data ->
  py_index (scaling_factors_F self) 0 = Returned sF0 ->
  py_index (scaling_factors_F self) 1 = Returned sF1 ->
  py_index (scaling_factors_F self) 2 = Returned sF2 ->
  counts_per_force self = Some dF ->
  py_truediv (raw_value (firstn BUFFER_SIZE data) F_BYTE_OFFSET 0 * sF0) dF = Returned xF0 ->
  py_truediv (raw_value (firstn BUFFER_SIZE data) F_BYTE_OFFSET 1 * sF1) dF = Returned xF1 ->
  py_truediv (raw_value (firstn BUFFER_SIZE data) F_BYTE_OFFSET 2 * sF2) dF = Returned xF2 ->
  py_index (scaling_factors_T self) 0 = Returned sT0 ->
  py_index (scaling_factors_T self) 1 = Returned sT1 ->
  py_index (scaling_factors_T self) 2 = Returned sT2 ->
  counts_per_torque self = Some dT ->
  py_truediv (raw_value (firstn BUFFER_SIZE data) T_BYTE_OFFSET 0 * sT0) dT = Returned xT0 ->
  py_truediv (raw_value (firstn BUFFER_SIZE data) T_BYTE_OFFSET 1 * sT1) dT = Returned xT1 ->
  py_truediv (raw_value (firstn BUFFER_SIZE data) T_BYTE_OFFSET 2 * sT2) dT = Returned xT2 ->
  (raw = false ->
   bias_at (F_bias self) 0 fF0 /\ bias_at (F_bias self) 1 fF1 /\ bias_at (F_bias self) 2 fF2) ->
  (raw = false ->
   bias_at (T_bias self) 0 fT0 /\ bias_at (T_bias self) 1 fT1 /\ bias_at (T_bias self) 2 fT2) ->
  fst (get_data raw net self) =
  Returned (Some [PyFloat (if raw then xF0 else float_sub xF0 fF0);
                  PyFloat (if raw then xF1 else float_sub xF1 fF1);
                  PyFloat (if raw then xF2 else float_sub xF2 fF2)],
            Some [PyFloat (if raw then xT0 else float_sub xT0 fT0);
                  PyFloat (if raw then xT1 else float_sub xT1 fT1);
                  PyFloat (if raw then xT2 else float_sub xT2 fT2)]).
Proof.
  intros Hc Hs Hsa Hra HF0 HF1 HF2 HdF HxF0 HxF1 HxF2
         HT0 HT1 HT2 HdT HxT0 HxT1 HxT2 HbF HbT.
  rewrite (get_data_connected raw net data self) by assumption.
  unfold try_except_timeout. unfold bind at 1.
  rewrite (convert_loop_returns raw (firstn BUFFER_SIZE data) F_BYTE_OFFSET
             scaling_factors_F counts_per_force F_bias (after_exchange self) dF
             sF0 sF1 sF2 xF0 xF1 xF2 fF0 fF1 fF2); try assumption.
  unfold bind at 1.
  rewrite (convert_loop_returns raw (firstn BUFFER_SIZE data) T_BYTE_OFFSET
             scaling_factors_T counts_per_torque T_bias (after_exchange self) dT
             sT0 sT1 sT2 xT0 xT1 xT2 fT0 fT1 fT2); try assumption.
  reflexivity.
Qed.

(** ** Decoding and converting a sample (C1) *)

(** C1: on a sample frame (16 bytes or more) received by a connected,
    calibrated object, [get_data] returns for each axis the float
    division of (raw count * scaling factor) by the counts per unit, the
    raw counts being the signed 16-bit big-endian fields at offsets 4, 6,
    8 (force) and 10, 12, 14 (torque); with [raw] false the bias of the
    axis is subtracted from the quotient, with [raw] true the quotient is
    returned as it is. *)
Theorem get_data_decodes_and_converts :
  forall (raw : bool) (data : bytes) (self : ATIForceTorqueSensor)
         (sF0 sF1 sF2 sT0 sT1 sT2 cF cT : Z)
         (bF0 bF1 bF2 bT0 bT1 bT2 : float),
    connected self = true ->
    closed (sock self) = false ->
    (16 <= List.length data)%nat ->
    scaling_factors_F self = [sF0; sF1; sF2] ->
    scaling_factors_T self = [sT0; sT1; sT2] ->
    Forall int16 [sF0; sF1; sF2; sT0; sT1; sT2] ->
    counts_per_force self = Some cF ->
    counts_per_torque self = Some cT ->
    cF <> 0 ->
    cT <> 0 ->
    (raw = false ->
     bias_at (F_bias self) 0 bF0 /\ bias_at (F_bias self) 1 bF1 /\
     bias_at (F_bias self) 2 bF2) ->
    (raw = false ->
     bias_at (T_bias self) 0 bT0 /\ bias_at (T_bias self) 1 bT1 /\
     bias_at (T_bias self) 2 bT2) ->
    fst (get_data raw (answers data) self) =
    Returned (Some [PyFloat (physical raw (be16 data 4) sF0 cF bF0);
                    PyFloat (physical raw (be16 data 6) sF1 cF bF1);
                    PyFloat (physical raw (be16 data 8) sF2 cF bF2)],
              Some [PyFloat (physical raw (be16 data 10) sT0 cT bT0);
                    PyFloat (physical raw (be16 data 12) sT1 cT bT1);
                    PyFloat (physical raw (be16 data 14) sT2 cT bT2)]).
Proof.
  intros raw data self sF0 sF1 sF2 sT0 sT1 sT2 cF cT bF0 bF1 bF2 bT0 bT1 bT2
         Hc Hs Hlen HsF HsT Hint HcF HcT HnF HnT HbF HbT.
  destruct (raw_value_be16 data Hlen) as (R0 & R1 & R2 & R3 & R4 & R5).
  repeat match goal with
         | H : Forall _ (_ :: _) |- _ => inversion H; subst; clear H
         | H : Forall _ [] |- _ => clear H
         end.
  unfold physical.
  apply (get_data_returns raw (answers data) data self cF cT sF0 sF1 sF2 sT0 sT1 sT2);
    try assumption; try reflexivity;
    try (rewrite HsF; reflexivity); try (rewrite HsT; reflexivity);
    rewrite <- ?R0, <- ?R1, <- ?R2, <- ?R3, <- ?R4, <- ?R5;
    apply py_truediv_int16; try assumption; apply raw_value_int16.
Qed.

Lemma get_data_decodes_and_converts_witness :
  fst (get_data false (answers sample_frame) calibrated_sensor) =
  Returned (Some [PyFloat (physical false 100 10 1000 pos_zero);
                  PyFloat (physical false 100 10 1000 pos_zero);
                  PyFloat (physical false 100 10 1000 pos_zero)],
            Some [PyFloat (physical false 50 5 1000 pos_zero);
                  PyFloat (physical false 50 5 1000 pos_zero);
                  PyFloat (physical false 50 5 1000 pos_zero)]) /\
  physical false 100 10 1000 pos_zero = one /\
  physical false 50 5 1000 pos_zero = quarter.
Proof.
  split; [|split; vm_compute; reflexivity].
  apply (get_data_decodes_and_converts false sample_frame calibrated_sensor
           10 10 10 5 5 5 1000 1000
           pos_zero pos_zero pos_zero pos_zero pos_zero pos_zero);
    try reflexivity; try (simpl; lia); try discriminate.
  - repeat constructor; unfold int16; lia.
  - intros _. repeat split; exists (PyInt 0); split; reflexivity.
  - intros _. repeat split; exists (PyInt 0); split; reflexivity.
Defined.

(** ** The calibration exchange *)

Lemma get_calibration_info_connected net data self :
  connected self = true ->
  closed (sock self) = false ->
  sendall_answer net = Returned tt ->
  recv_answer net = Returned data ->
  fst (get_calibration_info net self) =
  match parse_calibration (firstn BUFFER_SIZE data) with
  | Raised socket_timeout => Raised (Exception msg_recv_timeout)
  | r => r
  end /\
  closed (sock (snd (get_calibration_info net self))) =
  match parse_calibration (firstn BUFFER_SIZE data) with
  | Raised socket_timeout => true
  | _ => false
  end.
Proof.
  intros Hc Hs Hsa Hra.
  destruct self as [c [cl cs] fb tb sf st fu tu cf ct].
  destruct net as [sa ra]. simpl in Hc, Hs, Hsa, Hra. subst c cl sa ra.
  unfold get_calibration_info, bind, attr, lift, try_except_timeout.
  cbn -[firstn parse_calibration BUFFER_SIZE].
  destruct (parse_calibration (firstn BUFFER_SIZE data)) as [r|e];
    [split; reflexivity|].
  destruct e; split; reflexivity.
Qed.

(** The fields of a response of 24 bytes or more. *)
Lemma parse_calibration_layout (data : bytes) :
  (24 <= List.length data)%nat ->
  parse_calibration (firstn BUFFER_SIZE data) =
  Returned (byte_at data 2, byte_at data 3, be32 data 4, be32 data 8,
            [be16 data 12; be16 data 14; be16 data 16],
            [be16 data 18; be16 data 20; be16 data 22]).
Proof.
  intros Hlen.
  do 24 (destruct data as [|? data]; [simpl in Hlen; lia|]).
  unfold be32, be16, byte_at. cbn [nth Nat.add].
  rewrite <- !int_from_bytes_signed_2, <- !int_from_bytes_signed_4.
  reflexivity.
Qed.

(** ** The layout of the calibration response (C2) *)

(** C2: for a connected object and a calibration response of at least 24
    bytes, [get_calibration_info] returns the force unit code of byte 2,
    the torque unit code of byte 3, counts_per_force and
    counts_per_torque as the signed 32-bit big-endian fields at 4 and 8,
    and the force and torque scaling factors as the signed 16-bit
    big-endian fields at 12, 14, 16 and 18, 20, 22; a response that
    begins with the documented 24 bytes gives 1, 2, 1000, 1000,
    [10, 10, 10] and [5, 5, 5]. *)
Theorem get_calibration_info_layout :
  forall (self : ATIForceTorqueSensor),
    connected self = true ->
    closed (sock self) = false ->
    (forall data : bytes,
        (24 <= List.length data)%nat ->
        fst (get_calibration_info (answers data) self) =
        Returned (byte_at data 2, byte_at data 3, be32 data 4, be32 data 8,
                  [be16 data 12; be16 data 14; be16 data 16],
                  [be16 data 18; be16 data 20; be16 data 22])) /\
    (forall rest : bytes,
        fst (get_calibration_info (answers (calibration_frame ++ rest)) self) =
        Returned (1, 2, 1000, 1000, [10; 10; 10], [5; 5; 5])).
Proof.
  intros self Hc Hs.
  assert (Hgen : forall data : bytes,
             (24 <= List.length data)%nat ->
             fst (get_calibration_info (answers data) self) =
             Returned (byte_at data 2, byte_at data 3, be32 data 4, be32 data 8,
                       [be16 data 12; be16 data 14; be16 data 16],
                       [be16 data 18; be16 data 20; be16 data 22])).
  { intros data Hlen.
    destruct (get_calibration_info_connected (answers data) data self Hc Hs
                eq_refl eq_refl) as [Hf _].
    rewrite Hf, (parse_calibration_layout data Hlen). reflexivity. }
  split; [exact Hgen|].
  intros rest. rewrite Hgen.
  - reflexivity.
  - rewrite length_app. simpl. lia.
Qed.

Lemma get_calibration_info_layout_witness :
  fst (get_calibration_info (answers calibration_frame) connected_sensor) =
  Returned (1, 2, 1000, 1000, [10; 10; 10], [5; 5; 5]).
Proof.
  pose proof (get_calibration_info_layout connected_sensor eq_refl eq_refl) as [_ H].
  specialize (H []). exact H.
Defined.

(** ** Receive timeouts (C3) *)

(** C3: when [recv] times out, [get_data] returns [(None, None)] and
    raises nothing, while [get_calibration_info] raises the fatal
    recv-timeout exception and leaves the socket closed. *)
Theorem recv_timeout_sample_none_calibration_fatal :
  forall (raw : bool) (self : ATIForceTorqueSensor),
    connected self = true ->
    closed (sock self) = false ->
    fst (get_data raw times_out self) = Returned (None, None) /\
    fst (get_calibration_info times_out self) = Raised (Exception msg_recv_timeout) /\
    closed (sock (snd (get_calibration_info times_out self))) = true.
Proof.
  intros raw self Hc Hs.
  destruct self as [c [cl cs] fb tb sf st fu tu cf ct].
  simpl in Hc, Hs. subst c cl.
  repeat split.
Qed.

Lemma recv_timeout_witness :
  fst (get_data false times_out calibrated_sensor) = Returned (None, None) /\
  fst (get_calibration_info times_out calibrated_sensor) = Raised (Exception msg_recv_timeout) /\
  closed (sock (snd (get_calibration_info times_out calibrated_sensor))) = true.
Proof.
  apply (recv_timeout_sample_none_calibration_fatal false calibrated_sensor);
    reflexivity.
Defined.

(** ** A zero divisor (C4) *)

Lemma convert_loop_zero_divisor raw data OFF sc cn bias V self s :
  py_index (sc self) 0 = Returned s ->
  cn self = Some 0 ->
  for_in (seq 0 3) (convert_axis raw data OFF sc cn bias) V self =
  (Raised ZeroDivisionError, self).
Proof.
  intros Hs Hd. rewrite for_in_3. unfold bind at 1.
  rewrite (convert_axis_zero_divisor raw data OFF sc cn bias 0 V self s Hs Hd).
  reflexivity.
Qed.

(** C4, what the code does against the claim: after a calibration
    response whose counts_per_force field is 0, a read of the documented
    sample frame ends in [ZeroDivisionError], the exception of the
    division itself; no guard stands before it. *)
Lemma get_data_zero_counts_divides :
  counts_per_force zero_counts_sensor = Some 0 /\
  fst (get_data true (answers sample_frame) zero_counts_sensor) = Raised ZeroDivisionError.
Proof. split; vm_compute; reflexivity. Qed.

(** C4 as amended: a connected, answered read of an object whose
    counts_per_force or counts_per_torque is 0 divides without a guard:
    it raises [ZeroDivisionError] and returns no sample. *)
Theorem get_data_zero_counts_raises :
  forall (raw : bool) (data : bytes) (self : ATIForceTorqueSensor)
         (sF0 sF1 sF2 sT0 sT1 sT2 cF cT : Z) (bF0 bF1 bF2 : float),
    connected self = true ->
    closed (sock self) = false ->
    scaling_factors_F self = [sF0; sF1; sF2] ->
    scaling_factors_T self = [sT0; sT1; sT2] ->
    Forall int16 [sF0; sF1; sF2] ->
    counts_per_force self = Some cF ->
    counts_per_torque self = Some cT ->
    (raw = false ->
     bias_at (F_bias self) 0 bF0 /\ bias_at (F_bias self) 1 bF1 /\
     bias_at (F_bias self) 2 bF2) ->
    cF = 0 \/ cT = 0 ->
    fst (get_data raw (answers data) self) = Raised ZeroDivisionError.
Proof.
  intros raw data self sF0 sF1 sF2 sT0 sT1 sT2 cF cT bF0 bF1 bF2
         Hc Hs HsF HsT Hint HcF HcT HbF Hzero.
  rewrite (get_data_connected raw (answers data) data self) by (assumption || reflexivity).
  unfold try_except_timeout. unfold bind at 1.
  assert (HiF : forall i, py_index (scaling_factors_F self) i = py_index [sF0; sF1; sF2] i)
    by (intros i; rewrite HsF; reflexivity).
  assert (HiT : py_index (scaling_factors_T self) 0 = Returned sT0)
    by (rewrite HsT; reflexivity).
  destruct (Z.eq_dec cF 0) as [->|HnF].
  - rewrite (convert_loop_zero_divisor raw _ F_BYTE_OFFSET scaling_factors_F
               counts_per_force F_bias _ (after_exchange self) sF0 (HiF 0%nat) HcF).
    reflexivity.
  - destruct Hzero as [?| ->]; [contradiction|].
    inversion Hint as [|? ? I0 Hint1]; subst.
    inversion Hint1 as [|? ? I1 Hint2]; subst.
    inversion Hint2 as [|? ? I2 _]; subst.
    assert (HxF : forall i s, int16 s ->
              py_truediv (raw_value (firstn BUFFER_SIZE data) F_BYTE_OFFSET i * s) cF =
              Returned (float_div
                          (exact_int (raw_value (firstn BUFFER_SIZE data) F_BYTE_OFFSET i * s))
                          (exact_int cF)))
      by (intros i s Hi; apply py_truediv_int16;
          [apply raw_value_int16 | assumption | assumption]).
    rewrite (convert_loop_returns raw (firstn BUFFER_SIZE data) F_BYTE_OFFSET
               scaling_factors_F counts_per_force F_bias (after_exchange self) cF
               sF0 sF1 sF2 _ _ _ bF0 bF1 bF2 _ _ _
               (HiF 0%nat) (HiF 1%nat) (HiF 2%nat)
               HcF (HxF 0%nat sF0 I0) (HxF 1%nat sF1 I1) (HxF 2%nat sF2 I2) HbF).
    unfold bind at 1.
    rewrite (convert_loop_zero_divisor raw _ T_BYTE_OFFSET scaling_factors_T
               counts_per_torque T_bias _ (after_exchange self) sT0 HiT HcT).
    reflexivity.
Qed.

Lemma get_data_zero_counts_raises_witness :
  fst (get_data true (answers sample_frame) zero_counts_sensor) = Raised ZeroDivisionError.
Proof.
  apply (get_data_zero_counts_raises true sample_frame zero_counts_sensor
           10 10 10 5 5 5 0 1000 pos_zero pos_zero pos_zero);
    try reflexivity.
  - repeat constructor; unfold int16; lia.
  - intros H; discriminate H.
  - left; reflexivity.
Defined.

(** ** Reading and zeroing while not connected (C5) *)

(** C5, what the code does against the claim: a read on an object that
    was never connected returns [(None, None)]; it raises nothing. *)
Lemma get_data_not_connected_returns :
  connected __init__ = false /\
  fst (get_data false (answers sample_frame) __init__) = Returned (None, None) /\
  forall e, fst (get_data false (answers sample_frame) __init__) <> Raised e.
Proof.
  split; [reflexivity|]. split; [reflexivity|].
  intros e H. discriminate H.
Qed.

(** C5 as amended: while [connected] is false, [get_data] returns
    [(None, None)] without raising, [zero_sensor] does not return, and
    neither makes a call on the socket nor writes any attribute. *)
Theorem not_connected_no_io :
  forall (raw : bool) (net : network) (self : ATIForceTorqueSensor),
    connected self = false ->
    get_data raw net self = (Returned (None, None), self) /\
    (exists e, fst (zero_sensor net self) = Raised e) /\
    snd (zero_sensor net self) = self /\
    calls (sock (snd (get_data raw net self))) = calls (sock self) /\
    calls (sock (snd (zero_sensor net self))) = calls (sock self).
Proof.
  intros raw net self Hc.
  assert (Hg : forall r, get_data r net self = (Returned (None, None), self))
    by (intros r; apply get_data_not_connected; assumption).
  assert (Hz : zero_sensor net self = (Raised AttributeError, self)).
  { unfold zero_sensor, bind. rewrite Hg. reflexivity. }
  rewrite Hg, Hz. simpl. repeat split. exists AttributeError. reflexivity.
Qed.

Lemma not_connected_no_io_witness :
  get_data false (answers sample_frame) __init__ = (Returned (None, None), __init__) /\
  (exists e, fst (zero_sensor (answers sample_frame) __init__) = Raised e) /\
  snd (zero_sensor (answers sample_frame) __init__) = __init__ /\
  calls (sock (snd (get_data false (answers sample_frame) __init__))) = calls (sock __init__) /\
  calls (sock (snd (zero_sensor (answers sample_frame) __init__))) = calls (sock __init__).
Proof.
  apply (not_connected_no_io false (answers sample_frame) __init__). reflexivity.
Defined.

(** ** Zeroing *)

Lemma zero_sensor_unfold net self :
  zero_sensor net self =
  match get_data true net self with
  | (Returned (Some F, Some T), self1) => (Returned tt, set_T_bias T (set_F_bias F self1))
  | (Returned (Some F, None), self1) => (Raised AttributeError, set_F_bias F self1)
  | (Returned (None, _), self1) => (Raised AttributeError, self1)
  | (Raised e, self1) => (Raised e, self1)
  end.
Proof.
  unfold zero_sensor, bind.
  destruct (get_data true net self) as [[[[F|] [T|]]|e] self1]; reflexivity.
Qed.

(** A raw read gives the same outcome whatever the bias lists and the
    call log hold. *)
Lemma get_data_raw_same net self1 self2 :
  connected self1 = connected self2 ->
  closed (sock self1) = closed (sock self2) ->
  same_calibration self1 self2 ->
  fst (get_data true net self1) = fst (get_data true net self2).
Proof.
  intros Hc Hs (HsF & HsT & HcF & HcT & _ & _).
  destruct (connected self2) eqn:Hc2.
  2:{ rewrite !get_data_not_connected by assumption. reflexivity. }
  destruct (closed (sock self2)) eqn:Hs2.
  1:{ rewrite !get_data_closed by assumption. reflexivity. }
  destruct (sendall_answer net) as [[]|e] eqn:Hsa.
  2:{ rewrite (get_data_send_fails true net self1 e),
              (get_data_send_fails true net self2 e) by assumption.
      reflexivity. }
  destruct (recv_answer net) as [data|e] eqn:Hra.
  2:{ rewrite (get_data_recv_fails true net self1 e),
              (get_data_recv_fails true net self2 e) by assumption.
      reflexivity. }
  rewrite (get_data_connected true net data self1),
          (get_data_connected true net data self2) by assumption.
  unfold try_except_timeout, bind.
  pose proof (convert_loop_raw_bias (firstn BUFFER_SIZE data) F_BYTE_OFFSET
                scaling_factors_F counts_per_force F_bias F_bias (seq 0 3)
                (after_exchange self1) (after_exchange self2) HsF HcF
                [PyInt 0; PyInt 0; PyInt 0]) as HF.
  pose proof (convert_loop_self true (firstn BUFFER_SIZE data) F_BYTE_OFFSET
                scaling_factors_F counts_per_force F_bias (seq 0 3)
                [PyInt 0; PyInt 0; PyInt 0] (after_exchange self1)) as H1.
  pose proof (convert_loop_self true (firstn BUFFER_SIZE data) F_BYTE_OFFSET
                scaling_factors_F counts_per_force F_bias (seq 0 3)
                [PyInt 0; PyInt 0; PyInt 0] (after_exchange self2)) as H2.
  destruct (for_in (seq 0 3) (convert_axis true _ F_BYTE_OFFSET _ _ _) _
              (after_exchange self1)) as [o1 t1].
  destruct (for_in (seq 0 3) (convert_axis true _ F_BYTE_OFFSET _ _ _) _
              (after_exchange self2)) as [o2 t2].
  simpl in HF, H1, H2. subst o2 t1 t2.
  destruct o1 as [F|e]; [|destruct e; reflexivity].
  pose proof (convert_loop_raw_bias (firstn BUFFER_SIZE data) T_BYTE_OFFSET
                scaling_factors_T counts_per_torque T_bias T_bias (seq 0 3)
                (after_exchange self1) (after_exchange self2) HsT HcT
                [PyInt 0; PyInt 0; PyInt 0]) as HT.
  destruct (for_in (seq 0 3) (convert_axis true _ T_BYTE_OFFSET _ _ _) _
              (after_exchange self1)) as [o1 t1].
  destruct (for_in (seq 0 3) (convert_axis true _ T_BYTE_OFFSET _ _ _) _
              (after_exchange self2)) as [o2 t2].
  simpl in HT. subst o2.
  destruct o1 as [T|e]; [reflexivity | destruct e; reflexivity].
Qed.

(** When the raw read returns two vectors, [zero_sensor] returns and the
    bias lists are these vectors. *)
Lemma zero_sensor_returns net self F T :
  fst (get_data true net self) = Returned (Some F, Some T) ->
  fst (zero_sensor net self) = Returned tt /\
  F_bias (snd (zero_sensor net self)) = F /\
  T_bias (snd (zero_sensor net self)) = T.
Proof.
  intros H. rewrite zero_sensor_unfold.
  destruct (get_data true net self) as [o self1]. simpl in H. subst o.
  repeat split.
Qed.

(** ** What zeroing writes (C6) *)

(** C6: when the raw read of [zero_sensor] returns the two converted
    vectors, [zero_sensor] returns and the two bias lists are exactly
    these vectors, whatever bias was there before; when the read raises
    or returns [(None, None)], [zero_sensor] does not return and both
    bias lists are as they were. *)
Theorem zero_sensor_replaces_bias_or_keeps_it :
  forall (net : network) (self : ATIForceTorqueSensor),
    (forall F T,
        fst (get_data true net self) = Returned (Some F, Some T) ->
        forall fb tb,
          let prior := set_T_bias tb (set_F_bias fb self) in
          fst (zero_sensor net prior) = Returned tt /\
          F_bias (snd (zero_sensor net prior)) = F /\
          T_bias (snd (zero_sensor net prior)) = T) /\
    ((forall F T, fst (get_data true net self) <> Returned (Some F, Some T)) ->
     (exists e, fst (zero_sensor net self) = Raised e) /\
     F_bias (snd (zero_sensor net self)) = F_bias self /\
     T_bias (snd (zero_sensor net self)) = T_bias self).
Proof.
  intros net self. split.
  - intros F T H fb tb prior. apply zero_sensor_returns.
    rewrite <- H. apply get_data_raw_same; try reflexivity.
    unfold same_calibration. repeat split.
  - intros Hno.
    pose proof (wos_get_data true net self) as Hw.
    apply same_but_sock_fields in Hw. destruct Hw as (_ & HF & HT & _).
    rewrite zero_sensor_unfold.
    destruct (get_data_outcomes true net self) as [H|[[e H]|(F & T & H)]].
    + destruct (get_data true net self) as [o self1]. simpl in H. subst o.
      simpl in *. split; [eexists; reflexivity | split; assumption].
    + destruct (get_data true net self) as [o self1]. simpl in H. subst o.
      simpl in *. split; [eexists; reflexivity | split; assumption].
    + exfalso. exact (Hno F T H).
Qed.

Lemma zero_sensor_replaces_bias_or_keeps_it_witness :
  (let prior :=
     set_T_bias [PyFloat one; PyFloat quarter; PyInt 7]
       (set_F_bias [PyFloat quarter; PyInt 3; PyFloat one] calibrated_sensor) in
   fst (zero_sensor (answers sample_frame) prior) = Returned tt /\
   F_bias (snd (zero_sensor (answers sample_frame) prior))
     = [PyFloat one; PyFloat one; PyFloat one] /\
   T_bias (snd (zero_sensor (answers sample_frame) prior))
     = [PyFloat quarter; PyFloat quarter; PyFloat quarter]) /\
  ((exists e, fst (zero_sensor times_out zeroed_sensor) = Raised e) /\
   F_bias (snd (zero_sensor times_out zeroed_sensor)) = F_bias zeroed_sensor /\
   T_bias (snd (zero_sensor times_out zeroed_sensor)) = T_bias zeroed_sensor).
Proof.
  split.
  - apply (proj1 (zero_sensor_replaces_bias_or_keeps_it
                    (answers sample_frame) calibrated_sensor)
             [PyFloat one; PyFloat one; PyFloat one]
             [PyFloat quarter; PyFloat quarter; PyFloat quarter]
             ltac:(vm_compute; reflexivity)
             [PyFloat quarter; PyInt 3; PyFloat one]
             [PyFloat one; PyFloat quarter; PyInt 7]).
  - apply (proj2 (zero_sensor_replaces_bias_or_keeps_it times_out zeroed_sensor)).
    intros F T H. vm_compute in H. discriminate H.
Defined.

(** ** Reading after zeroing (C7) *)

(** C7: when [zero_sensor] returned on a frame, a bias-corrected read
    that follows it and receives a frame with the same six raw counts
    returns [+0.0] on every axis of force and torque. *)
Theorem zero_then_corrected_read_is_zero :
  forall (net : network) (data data' : bytes) (self self1 : ATIForceTorqueSensor),
    recv_answer net = Returned data ->
    zero_sensor net self = (Returned tt, self1) ->
    same_raw_counts data data' ->
    fst (get_data false (answers data') self1) =
    Returned (Some [PyFloat pos_zero; PyFloat pos_zero; PyFloat pos_zero],
              Some [PyFloat pos_zero; PyFloat pos_zero; PyFloat pos_zero]).
Proof.
  intros net data data' self self1 Hra Hz Hsame.
  rewrite zero_sensor_unfold in Hz.
  destruct (get_data true net self) as [[[[F|] [T|]]|e] s1] eqn:Hg;
    try discriminate Hz.
  injection Hz as <-.
  destruct (get_data_raw_inv net self F T) as (Hc & Hs & Hsa & data0 & Hra0 & Hg0 & HF & HT);
    [rewrite Hg; reflexivity|].
  rewrite Hra in Hra0. injection Hra0 as <-.
  rewrite Hg in Hg0. injection Hg0 as ->.
  apply convert_loop_raw_inv in HF.
  destruct HF as (dF & sF0 & sF1 & sF2 & xF0 & xF1 & xF2 &
                  HF0 & HF1 & HF2 & HdF & HxF0 & HxF1 & HxF2 & ->).
  apply convert_loop_raw_inv in HT.
  destruct HT as (dT & sT0 & sT1 & sT2 & xT0 & xT1 & xT2 &
                  HT0 & HT1 & HT2 & HdT & HxT0 & HxT1 & HxT2 & ->).
  destruct (Hsame 0%nat ltac:(lia)) as [EF0 ET0].
  destruct (Hsame 1%nat ltac:(lia)) as [EF1 ET1].
  destruct (Hsame 2%nat ltac:(lia)) as [EF2 ET2].
  rewrite EF0 in HxF0. rewrite EF1 in HxF1. rewrite EF2 in HxF2.
  rewrite ET0 in HxT0. rewrite ET1 in HxT1. rewrite ET2 in HxT2.
  rewrite <- (float_sub_diag xF0 (py_truediv_finite _ _ _ HxF0)) at 1.
  rewrite <- (float_sub_diag xF1 (py_truediv_finite _ _ _ HxF1)) at 1.
  rewrite <- (float_sub_diag xF2 (py_truediv_finite _ _ _ HxF2)) at 1.
  rewrite <- (float_sub_diag xT0 (py_truediv_finite _ _ _ HxT0)) at 1.
  rewrite <- (float_sub_diag xT1 (py_truediv_finite _ _ _ HxT1)) at 1.
  rewrite <- (float_sub_diag xT2 (py_truediv_finite _ _ _ HxT2)) at 1.
  apply (get_data_returns false (answers data') data' _ dF dT
           sF0 sF1 sF2 sT0 sT1 sT2 xF0 xF1 xF2 xT0 xT1 xT2
           xF0 xF1 xF2 xT0 xT1 xT2);
    try assumption; try reflexivity.
  - intros _. repeat split; eexists; split; reflexivity.
  - intros _. repeat split; eexists; split; reflexivity.
Qed.

Lemma zero_then_corrected_read_is_zero_witness :
  fst (get_data false (answers sample_frame) zeroed_sensor) =
  Returned (Some [PyFloat pos_zero; PyFloat pos_zero; PyFloat pos_zero],
            Some [PyFloat pos_zero; PyFloat pos_zero; PyFloat pos_zero]).
Proof.
  apply (zero_then_corrected_read_is_zero (answers sample_frame)
           sample_frame sample_frame calibrated_sensor zeroed_sensor).
  - reflexivity.
  - vm_compute. reflexivity.
  - intros i Hi. split; reflexivity.
Defined.

(** ** Raw reads and the bias (C8) *)

(** C8: two raw reads that receive the same answer, on objects with the
    same connection state and the same calibration, give the same
    outcome whatever their bias lists hold. *)
Theorem raw_read_ignores_bias :
  forall (net : network) (self1 self2 : ATIForceTorqueSensor),
    connected self1 = connected self2 ->
    closed (sock self1) = closed (sock self2) ->
    same_calibration self1 self2 ->
    fst (get_data true net self1) = fst (get_data true net self2).
Proof.
  intros net self1 self2 Hc Hs Hcal.
  apply get_data_raw_same; assumption.
Qed.

Lemma raw_read_ignores_bias_witness :
  F_bias calibrated_sensor <> F_bias zeroed_sensor /\
  fst (get_data true (answers sample_frame) calibrated_sensor) =
  fst (get_data true (answers sample_frame) zeroed_sensor).
Proof.
  split; [intros H; vm_compute in H; discriminate H|].
  apply (raw_read_ignores_bias (answers sample_frame) calibrated_sensor zeroed_sensor).
  - reflexivity.
  - reflexivity.
  - unfold same_calibration. repeat split.
Defined.

(** ** Short calibration responses (C9) *)

(** C9, what the code does against the claim: a calibration response of
    three bytes is not read in silence, the index of the torque unit byte
    raises [IndexError]. *)
Lemma get_calibration_info_three_bytes_raises :
  fst (get_calibration_info (answers [x00; x00; x01]) connected_sensor) = Raised IndexError.
Proof. vm_compute. reflexivity. Qed.

Lemma parse_calibration_tiny (data : bytes) :
  (List.length data < 4)%nat ->
  parse_calibration (firstn BUFFER_SIZE data) = Raised IndexError.
Proof.
  intros Hlen.
  do 4 (destruct data as [|? data]; [reflexivity|]).
  simpl in Hlen. lia.
Qed.

(** ** What a read leaves alone (C10) *)

(** C10: whatever the flag, the answer of the network and the state of
    the object, [get_data] leaves [connected], the six calibration
    attributes and the two bias lists as they were; [zero_sensor] leaves
    [connected] and the calibration as they were too, and it is the one
    that writes the bias: zeroing the calibrated object on the documented
    sample frame changes [F_bias] and [T_bias]. *)
Theorem get_data_keeps_calibration_and_bias :
  (forall (raw : bool) (net : network) (self : ATIForceTorqueSensor),
      connected (snd (get_data raw net self)) = connected self /\
      F_bias (snd (get_data raw net self)) = F_bias self /\
      T_bias (snd (get_data raw net self)) = T_bias self /\
      same_calibration self (snd (get_data raw net self))) /\
  (forall (net : network) (self : ATIForceTorqueSensor),
      connected (snd (zero_sensor net self)) = connected self /\
      same_calibration self (snd (zero_sensor net self))) /\
  F_bias (snd (zero_sensor (answers sample_frame) calibrated_sensor))
    <> F_bias calibrated_sensor /\
  T_bias (snd (zero_sensor (answers sample_frame) calibrated_sensor))
    <> T_bias calibrated_sensor.
Proof.
  split; [|split; [|split]].
  - intros raw net self. apply same_but_sock_fields, wos_get_data.
  - intros net self. apply zero_sensor_keeps_calibration.
  - intros H. vm_compute in H. discriminate H.
  - intros H. vm_compute in H. discriminate H.
Qed.

(** * Further properties of the driver *)

(** ** Commands *)

Lemma bytes_fromhex_zeros (n : nat) :
  bytes_fromhex (str_repeat "00" n) = Returned (repeat x00 n).
Proof.
  induction n as [|n IH]; [reflexivity|].
  change (str_repeat "00" (S n))
    with (String "0" (String "0" (str_repeat "00" n))).
  cbn [bytes_fromhex]. rewrite IH. reflexivity.
Qed.

(** X1: for a command code that is a string of hexadecimal digit pairs,
    [_construct_command] returns the bytes of the code followed by zero
    bytes; the message has [MESSAGE_LENGTH] = 20 bytes when the code has
    at most 20, and a longer code is returned whole, neither cut nor
    refused. *)
Theorem construct_command_pads_never_cuts :
  forall (command_code : string) (command : bytes),
    bytes_fromhex command_code = Returned command ->
    exists message,
      _construct_command command_code = Returned message /\
      message = command ++ repeat x00 (MESSAGE_LENGTH - List.length command) /\
      List.length message = Nat.max MESSAGE_LENGTH (List.length command).
Proof.
  intros code command Hc.
  exists (command ++ repeat x00 (MESSAGE_LENGTH - List.length command)).
  unfold _construct_command. rewrite Hc, bytes_fromhex_zeros.
  repeat split. rewrite length_app, repeat_length. lia.
Qed.

Lemma construct_command_pads_never_cuts_witness :
  exists message,
    _construct_command "01ff" = Returned message /\
    message = [x01; xff] ++ repeat x00 (MESSAGE_LENGTH - 2) /\
    List.length message = Nat.max MESSAGE_LENGTH 2.
Proof.
  apply (construct_command_pads_never_cuts "01ff" [x01; xff]). reflexivity.
Defined.

(** ** The range of [int.from_bytes] *)

Lemma be_unsigned_acc (bs : bytes) : forall acc,
  fold_left (fun acc b => acc * 256 + byte_val b) bs acc =
  acc * 256 ^ Z.of_nat (List.length bs) + be_unsigned bs.
Proof.
  unfold be_unsigned.
  induction bs as [|b t IH]; intros acc.
  - simpl. lia.
  - cbn [fold_left List.length]. rewrite IH, (IH (0 * 256 + byte_val b)).
    rewrite Nat2Z.inj_succ, Z.pow_succ_r by lia. ring.
Qed.

Lemma be_unsigned_range (bs : bytes) :
  0 <= be_unsigned bs < 256 ^ Z.of_nat (List.length bs).
Proof.
  induction bs as [|b t IH].
  - unfold be_unsigned. simpl. lia.
  - unfold be_unsigned. cbn [fold_left List.length]. rewrite be_unsigned_acc.
    pose proof (byte_val_range b).
    rewrite Nat2Z.inj_succ, Z.pow_succ_r by lia.
    assert (0 < 256 ^ Z.of_nat (List.length t)) by (apply Z.pow_pos_nonneg; lia).
    nia.
Qed.

(** A signed value read from [n] bytes or fewer fits [8 * n] bits. *)
Lemma int_from_bytes_signed_range (bs : bytes) (n : Z) :
  Z.of_nat (List.length bs) <= n -> 0 < n ->
  - 2 ^ (8 * n - 1) <= int_from_bytes_signed bs < 2 ^ (8 * n - 1).
Proof.
  intros Hlen Hn.
  assert (Hpos : 0 < 2 ^ (8 * n - 1)) by (apply Z.pow_pos_nonneg; lia).
  destruct bs as [|b t]; [change (int_from_bytes_signed []) with 0; lia|].
  assert (Hown : - 2 ^ (8 * Z.of_nat (List.length (b :: t)) - 1)
                 <= int_from_bytes_signed (b :: t)
                 < 2 ^ (8 * Z.of_nat (List.length (b :: t)) - 1)).
  { unfold int_from_bytes_signed.
    assert (Hu : be_unsigned (b :: t)
                 = byte_val b * 256 ^ Z.of_nat (List.length t) + be_unsigned t).
    { unfold be_unsigned at 1. cbn [fold_left]. rewrite be_unsigned_acc. ring. }
    pose proof (be_unsigned_range t) as Ht. pose proof (byte_val_range b) as Hb.
    cbn [List.length]. rewrite Nat2Z.inj_succ.
    set (k := Z.of_nat (List.length t)) in *.
    assert (Hk : 0 <= k) by (unfold k; lia).
    replace (8 * Z.succ k) with (8 * k + 8) by lia.
    replace (8 * k + 8 - 1) with (8 * k + 7) by lia.
    rewrite !Z.pow_add_r by lia.
    replace (2 ^ (8 * k)) with (256 ^ k)
      by (change 256 with (2 ^ 8); rewrite <- Z.pow_mul_r by lia; reflexivity).
    change (2 ^ 8) with 256. change (2 ^ 7) with 128.
    assert (0 < 256 ^ k) by (apply Z.pow_pos_nonneg; lia).
    rewrite Hu. destruct (Z.leb_spec 128 (byte_val b)); nia. }
  assert (Hmono : 2 ^ (8 * Z.of_nat (List.length (b :: t)) - 1) <= 2 ^ (8 * n - 1)).
  { apply Z.pow_le_mono_r; [lia|]. cbn [List.length] in *. lia. }
  lia.
Qed.

Lemma py_slice_length {A : Type} (l : list A) (lo hi : nat) :
  (List.length (py_slice l lo hi) <= hi - lo)%nat.
Proof. unfold py_slice. apply firstn_le_length. Qed.

(** ** What [get_calibration_info] can return *)

(** The tuple [parse_calibration] builds, field by field. *)
Lemma parse_calibration_fields (rd : bytes) :
  parse_calibration rd =
  match py_index rd 2, py_index rd 3 with
  | Returned fu, Returned tu =>
      Returned (byte_val fu, byte_val tu,
                int_from_bytes_signed (py_slice rd 4 8),
                int_from_bytes_signed (py_slice rd 8 12),
                [raw_value rd 12 0; raw_value rd 12 1; raw_value rd 12 2],
                [raw_value rd 12 3; raw_value rd 12 4; raw_value rd 12 5])
  | Raised e, _ => Raised e
  | _, Raised e => Raised e
  end.
Proof.
  unfold parse_calibration.
  change (py_index rd HEADER_LENGTH) with (py_index rd 2).
  change (py_index rd (HEADER_LENGTH + 1)) with (py_index rd 3).
  destruct (py_index rd 2); [|reflexivity].
  destruct (py_index rd 3); reflexivity.
Qed.

Lemma parse_calibration_well_ranged (rd : bytes) (c : calibration_info) :
  parse_calibration rd = Returned c -> well_ranged c.
Proof.
  rewrite parse_calibration_fields.
  destruct (py_index rd 2) as [fu|]; [|discriminate].
  destruct (py_index rd 3) as [tu|]; [|discriminate].
  intros H. injection H as <-. unfold well_ranged, unit_code, int32.
  pose proof (byte_val_range fu). pose proof (byte_val_range tu).
  pose proof (int_from_bytes_signed_range (py_slice rd 4 8) 4) as H48.
  pose proof (int_from_bytes_signed_range (py_slice rd 8 12) 4) as H812.
  pose proof (py_slice_length rd 4 8). pose proof (py_slice_length rd 8 12).
  change (8 * 4 - 1) with 31 in *.
  repeat split; try lia; try (apply H48; lia); try (apply H812; lia);
    repeat constructor; apply raw_value_int16.
Qed.

(** A calibration exchange that returns was connected, was answered, and
    returns what [parse_calibration] makes of the bytes received. *)
Lemma get_calibration_info_inv net self c :
  fst (get_calibration_info net self) = Returned c ->
  connected self = true /\ closed (sock self) = false /\
  sendall_answer net = Returned tt /\
  exists data,
    recv_answer net = Returned data /\
    parse_calibration (firstn BUFFER_SIZE data) = Returned c /\
    snd (get_calibration_info net self) =
    set_sock (record_call (call_recv BUFFER_SIZE)
                (record_call (call_sendall read_calibration_command) (sock self)))
      self.
Proof.
  destruct self as [cn [cl cs] fb tb sf st fu tu cf ct].
  destruct net as [sa ra].
  unfold get_calibration_info, bind, attr, lift, try_except_timeout.
  cbn -[firstn parse_calibration BUFFER_SIZE].
  destruct cn; [|discriminate]. destruct cl; [discriminate|].
  cbn -[firstn parse_calibration BUFFER_SIZE].
  destruct sa as [[]|e]; [|discriminate].
  destruct ra as [data|e]; cbn -[firstn parse_calibration BUFFER_SIZE].
  - destruct (parse_calibration (firstn BUFFER_SIZE data)) as [c'|e] eqn:Hp.
    + cbn -[firstn parse_calibration BUFFER_SIZE].
      intros H. injection H as <-. repeat split. exists data.
      split; [reflexivity|]. split; [exact Hp | reflexivity].
    + destruct e; discriminate.
  - destruct e; discriminate.
Qed.

(** X2: whatever the device answers, a tuple that [get_calibration_info]
    returns has unit codes in 0..255, counts in the signed 32-bit range
    and exactly three scaling factors per vector, each in the signed
    16-bit range. *)
Theorem get_calibration_info_returns_well_ranged :
  forall (net : network) (self : ATIForceTorqueSensor) (c : calibration_info),
    fst (get_calibration_info net self) = Returned c ->
    well_ranged c.
Proof.
  intros net self c H.
  destruct (get_calibration_info_inv net self c H) as (_ & _ & _ & data & _ & Hp & _).
  exact (parse_calibration_well_ranged _ c Hp).
Qed.

Lemma get_calibration_info_returns_well_ranged_witness :
  well_ranged (1, 2, 0, 1000, [10; 10; 10], [5; 5; 5]).
Proof.
  apply (get_calibration_info_returns_well_ranged
           (answers zero_counts_frame) connected_sensor).
  vm_compute. reflexivity.
Defined.

(** ** Entering and leaving the [with] block *)

Lemma parse_calibration_returns (data : bytes) :
  (4 <= List.length data)%nat ->
  exists c, parse_calibration (firstn BUFFER_SIZE data) = Returned c.
Proof.
  intros Hlen.
  do 4 (destruct data as [|? data]; [simpl in Hlen; lia|]).
  rewrite parse_calibration_fields. eexists. reflexivity.
Qed.

(** X3: when [connect] completes and the calibration request is answered
    with 4 bytes or more, [__enter__] returns; the object is then
    connected with its socket open, its calibration attributes hold the
    tuple read from the response, which is well ranged, both bias lists
    are untouched, and the socket saw exactly connect, settimeout, the
    calibration command and one recv of [BUFFER_SIZE]. *)
Theorem enter_calibrates :
  forall (net : network) (data : bytes) (self : ATIForceTorqueSensor),
    closed (sock self) = false ->
    sendall_answer net = Returned tt ->
    recv_answer net = Returned data ->
    (4 <= List.length data)%nat ->
    exists c,
      parse_calibration (firstn BUFFER_SIZE data) = Returned c /\
      well_ranged c /\
      fst (__enter__ (Returned tt) net self) = Returned tt /\
      connected (snd (__enter__ (Returned tt) net self)) = true /\
      closed (sock (snd (__enter__ (Returned tt) net self))) = false /\
      holds_calibration (snd (__enter__ (Returned tt) net self)) c /\
      F_bias (snd (__enter__ (Returned tt) net self)) = F_bias self /\
      T_bias (snd (__enter__ (Returned tt) net self)) = T_bias self /\
      calls (sock (snd (__enter__ (Returned tt) net self))) =
      calls (sock self) ++
      [call_connect; call_settimeout; call_sendall read_calibration_command;
       call_recv BUFFER_SIZE].
Proof.
  intros net data self Hs Hsa Hra Hlen.
  destruct (parse_calibration_returns data Hlen) as [c Hp].
  exists c. split; [exact Hp|].
  split; [exact (parse_calibration_well_ranged _ c Hp)|].
  destruct self as [cn [cl cs] fb tb sf st fu tu cf ct].
  destruct net as [sa ra]. simpl in Hs, Hsa, Hra. subst cl sa ra.
  unfold __enter__, get_calibration_info, bind, attr, lift, assign,
    try_except_timeout.
  cbn -[firstn parse_calibration BUFFER_SIZE].
  rewrite Hp. destruct c as [[[[[fu' tu'] cf'] ct'] sF'] sT'].
  cbn -[BUFFER_SIZE]. rewrite <- !app_assoc. repeat split.
Qed.

Lemma enter_calibrates_witness :
  exists c,
    parse_calibration (firstn BUFFER_SIZE calibration_frame) = Returned c /\
    well_ranged c /\
    fst (__enter__ (Returned tt) (answers calibration_frame) __init__) = Returned tt /\
    connected calibrated_sensor = true /\
    closed (sock calibrated_sensor) = false /\
    holds_calibration calibrated_sensor c /\
    F_bias calibrated_sensor = F_bias __init__ /\
    T_bias calibrated_sensor = T_bias __init__ /\
    calls (sock calibrated_sensor) =
    calls (sock __init__) ++
    [call_connect; call_settimeout; call_sendall read_calibration_command;
     call_recv BUFFER_SIZE].
Proof.
  apply (enter_calibrates (answers calibration_frame) calibration_frame __init__);
    try reflexivity.
  simpl. lia.
Defined.

Lemma wos_get_calibration_info net : writes_only_sock (get_calibration_info net).
Proof. unfold get_calibration_info. repeat frame_step. Qed.

(** X4: a failed [__enter__] does not undo what it did.  When [connect]
    itself raises, the exception goes to the caller, [connected] is as it
    was and nothing was sent.  When [connect] completed and the
    calibration exchange raises, whatever the exception, [connected] is
    left [True], and the calibration attributes and the bias lists are
    as they were before the call. *)
Theorem enter_failure_stays_connected :
  forall (net : network) (self : ATIForceTorqueSensor),
    closed (sock self) = false ->
    (forall e,
        __enter__ (Raised e) net self =
        (Raised e, set_sock (record_call call_connect (sock self)) self)) /\
    (forall e,
        fst (__enter__ (Returned tt) net self) = Raised e ->
        connected (snd (__enter__ (Returned tt) net self)) = true /\
        same_calibration self (snd (__enter__ (Returned tt) net self)) /\
        F_bias (snd (__enter__ (Returned tt) net self)) = F_bias self /\
        T_bias (snd (__enter__ (Returned tt) net self)) = T_bias self).
Proof.
  intros net self Hs. split.
  - intros e. destruct self as [cn [cl cs] fb tb sf st fu tu cf ct].
    simpl in Hs. subst cl. reflexivity.
  - intros e.
    set (s3 := set_connected true
                 (set_sock (record_call call_settimeout
                              (record_call call_connect (sock self))) self)).
    assert (Hrun : __enter__ (Returned tt) net self =
                   (c <- get_calibration_info net ;; assign (set_calibration c)) s3).
    { destruct self as [cn [cl cs] fb tb sf st fu tu cf ct].
      simpl in Hs. subst cl. reflexivity. }
    rewrite Hrun. unfold bind.
    pose proof (wos_get_calibration_info net s3) as Hw.
    apply same_but_sock_fields in Hw. destruct Hw as (Hc & HF & HT & Hcal).
    destruct (get_calibration_info net s3) as [[c|e'] s4]; [discriminate|].
    simpl in *. intros _. repeat split; try assumption; apply Hcal.
Qed.

Lemma enter_failure_stays_connected_witness :
  connected (snd (__enter__ (Returned tt) times_out __init__)) = true /\
  same_calibration __init__ (snd (__enter__ (Returned tt) times_out __init__)) /\
  F_bias (snd (__enter__ (Returned tt) times_out __init__)) = F_bias __init__ /\
  T_bias (snd (__enter__ (Returned tt) times_out __init__)) = T_bias __init__.
Proof.
  apply (proj2 (enter_failure_stays_connected times_out __init__ eq_refl)
           (Exception msg_recv_timeout)).
  reflexivity.
Defined.

(** X5: [get_calibration_info] stores nothing: whatever its outcome, no
    attribute but the socket is written (it is [__enter__] that assigns
    the tuple).  On an object that is not connected it makes no request:
    it closes the socket, which is the only call it makes, and raises its
    not-connected exception. *)
Theorem get_calibration_info_only_touches_socket :
  forall (net : network) (self : ATIForceTorqueSensor),
    same_but_sock self (snd (get_calibration_info net self)) /\
    (connected self = false ->
     fst (get_calibration_info net self) = Raised (Exception msg_socket_not_connected) /\
     closed (sock (snd (get_calibration_info net self))) = true /\
     calls (sock (snd (get_calibration_info net self))) = calls (sock self) ++ [call_close]).
Proof.
  intros net self. split; [apply wos_get_calibration_info|].
  intros Hc. unfold get_calibration_info, bind, attr. rewrite Hc.
  repeat split.
Qed.

Lemma wos___exit__ : writes_only_sock __exit__.
Proof. unfold __exit__. repeat frame_step. Qed.

(** X6: [__exit__] on an object that is not connected makes no call, so
    the socket made by [__init__] is not closed by it.  On a connected
    object it closes the socket and leaves every other attribute,
    [connected] included; from then on every [get_data] and every
    [zero_sensor] raises [OSError] at its [sendall], and the bias lists
    stay as they were. *)
Theorem exit_closes_and_later_reads_raise :
  forall (self : ATIForceTorqueSensor),
    (connected self = false -> __exit__ self = (Returned tt, self)) /\
    (connected self = true ->
     fst (__exit__ self) = Returned tt /\
     closed (sock (snd (__exit__ self))) = true /\
     same_but_sock self (snd (__exit__ self)) /\
     forall raw net,
       fst (get_data raw net (snd (__exit__ self))) = Raised OSError /\
       fst (zero_sensor net (snd (__exit__ self))) = Raised OSError /\
       F_bias (snd (zero_sensor net (snd (__exit__ self)))) = F_bias self /\
       T_bias (snd (zero_sensor net (snd (__exit__ self)))) = T_bias self).
Proof.
  intros self. split; intros Hc.
  - unfold __exit__, bind, attr. rewrite Hc. reflexivity.
  - pose proof (wos___exit__ self) as Hw.
    assert (Hx : __exit__ self =
                 (Returned tt,
                  set_sock (mk_socket true (calls (sock self) ++ [call_close])) self)).
    { unfold __exit__, bind, attr. rewrite Hc. reflexivity. }
    rewrite Hx in *. simpl fst. simpl snd in *.
    repeat split; try assumption.
    + apply get_data_closed; destruct self; simpl in *; assumption || reflexivity.
    + rewrite zero_sensor_unfold.
      pose proof (get_data_closed true net
                    (set_sock (mk_socket true (calls (sock self) ++ [call_close])) self))
        as Hg.
      destruct (get_data true net _) as [o s1]. simpl in Hg.
      rewrite Hg by (destruct self; simpl in *; assumption || reflexivity).
      reflexivity.
    + rewrite zero_sensor_unfold.
      pose proof (get_data_closed true net
                    (set_sock (mk_socket true (calls (sock self) ++ [call_close])) self))
        as Hg.
      pose proof (wos_get_data true net
                    (set_sock (mk_socket true (calls (sock self) ++ [call_close])) self))
        as Hf.
      apply same_but_sock_fields in Hf. destruct Hf as (_ & HF & _ & _).
      destruct (get_data true net _) as [o s1]. simpl in Hg, HF.
      rewrite Hg by (destruct self; simpl in *; assumption || reflexivity).
      simpl. rewrite HF. destruct self; reflexivity.
    + rewrite zero_sensor_unfold.
      pose proof (get_data_closed true net
                    (set_sock (mk_socket true (calls (sock self) ++ [call_close])) self))
        as Hg.
      pose proof (wos_get_data true net
                    (set_sock (mk_socket true (calls (sock self) ++ [call_close])) self))
        as Hf.
      apply same_but_sock_fields in Hf. destruct Hf as (_ & _ & HT & _).
      destruct (get_data true net _) as [o s1]. simpl in Hg, HT.
      rewrite Hg by (destruct self; simpl in *; assumption || reflexivity).
      simpl. rewrite HT. destruct self; reflexivity.
Qed.

Lemma exit_closes_and_later_reads_raise_witness :
  fst (__exit__ calibrated_sensor) = Returned tt /\
  closed (sock (snd (__exit__ calibrated_sensor))) = true /\
  same_but_sock calibrated_sensor (snd (__exit__ calibrated_sensor)) /\
  forall raw net,
    fst (get_data raw net (snd (__exit__ calibrated_sensor))) = Raised OSError /\
    fst (zero_sensor net (snd (__exit__ calibrated_sensor))) = Raised OSError /\
    F_bias (snd (zero_sensor net (snd (__exit__ calibrated_sensor))))
      = F_bias calibrated_sensor /\
    T_bias (snd (zero_sensor net (snd (__exit__ calibrated_sensor))))
      = T_bias calibrated_sensor.
Proof.
  apply (proj2 (exit_closes_and_later_reads_raise calibrated_sensor)). reflexivity.
Defined.

(** ** What a read does to the socket *)

Lemma get_data_final_state raw net self :
  snd (get_data raw net self) =
  if connected self then
    if closed (sock self) then after_sendall read_sample_command self
    else match sendall_answer net with
         | Returned _ => after_exchange self
         | Raised _ => after_sendall read_sample_command self
         end
  else self.
Proof.
  destruct (connected self) eqn:Hc;
    [|rewrite get_data_not_connected by assumption; reflexivity].
  destruct (closed (sock self)) eqn:Hs.
  { destruct self as [cn [cl cs] fb tb sf st fu tu cf ct].
    simpl in Hc, Hs. subst cn cl. reflexivity. }
  destruct (sendall_answer net) as [[]|e] eqn:Hsa.
  2:{ destruct self as [cn [cl cs] fb tb sf st fu tu cf ct].
      destruct net as [sa ra]. simpl in Hc, Hs, Hsa. subst cn cl sa. reflexivity. }
  destruct (recv_answer net) as [data|e] eqn:Hra.
  2:{ destruct self as [cn [cl cs] fb tb sf st fu tu cf ct].
      destruct net as [sa ra]. simpl in Hc, Hs, Hsa, Hra. subst cn cl sa ra.
      destruct e; reflexivity. }
  rewrite (get_data_connected raw net data self) by assumption.
  unfold try_except_timeout, bind, ret.
  pose proof (convert_loop_self raw (firstn BUFFER_SIZE data) F_BYTE_OFFSET
                scaling_factors_F counts_per_force F_bias (seq 0 3)
                [PyInt 0; PyInt 0; PyInt 0] (after_exchange self)) as HsF.
  destruct (for_in (seq 0 3) (convert_axis raw _ F_BYTE_OFFSET _ _ _) _ _)
    as [[F1|e1] self1]; simpl in HsF; subst self1;
    [|destruct e1; reflexivity].
  pose proof (convert_loop_self raw (firstn BUFFER_SIZE data) T_BYTE_OFFSET
                scaling_factors_T counts_per_torque T_bias (seq 0 3)
                [PyInt 0; PyInt 0; PyInt 0] (after_exchange self)) as HsT.
  destruct (for_in (seq 0 3) (convert_axis raw _ T_BYTE_OFFSET _ _ _) _ _)
    as [[T1|e2] self2]; simpl in HsT; subst self2;
    [reflexivity | destruct e2; reflexivity].
Qed.

(** X7: [get_data] never closes the socket.  On a connected object with
    an open socket it sends the 20 zero bytes of the read command once;
    when the send completes it then calls [recv(BUFFER_SIZE)] exactly
    once, whatever is received and whether or not the conversion raises,
    and when the send raises it does not call [recv]. *)
Theorem get_data_one_request_never_closes :
  forall (raw : bool) (net : network) (self : ATIForceTorqueSensor),
    closed (sock (snd (get_data raw net self))) = closed (sock self) /\
    (connected self = true -> closed (sock self) = false ->
     calls (sock (snd (get_data raw net self))) =
     calls (sock self) ++
     match sendall_answer net with
     | Returned _ => [call_sendall read_sample_command; call_recv BUFFER_SIZE]
     | Raised _ => [call_sendall read_sample_command]
     end).
Proof.
  intros raw net self. rewrite get_data_final_state. split.
  - destruct (connected self), (closed (sock self)) eqn:Hs,
      (sendall_answer net); simpl; congruence.
  - intros Hc Hs. rewrite Hc, Hs.
    destruct (sendall_answer net); simpl; rewrite <- ?app_assoc; reflexivity.
Qed.

Lemma get_data_one_request_never_closes_witness :
  calls (sock (snd (get_data false times_out calibrated_sensor))) =
  calls (sock calibrated_sensor) ++
  [call_sendall read_sample_command; call_recv BUFFER_SIZE].
Proof.
  apply (proj2 (get_data_one_request_never_closes false times_out calibrated_sensor));
    reflexivity.
Defined.

(** X8: of the failures of the socket only a timeout of [recv] is turned
    into [(None, None)].  An exception raised by [sendall], a timeout
    included, and any other exception raised by [recv] reach the caller
    of [get_data] as they are. *)
Theorem get_data_passes_transport_errors :
  forall (raw : bool) (net : network) (self : ATIForceTorqueSensor) (e : exn),
    connected self = true ->
    closed (sock self) = false ->
    (sendall_answer net = Raised e -> fst (get_data raw net self) = Raised e) /\
    (sendall_answer net = Returned tt -> recv_answer net = Raised e ->
     e <> socket_timeout -> fst (get_data raw net self) = Raised e).
Proof.
  intros raw net self e Hc Hs. split.
  - intros Hsa. apply get_data_send_fails; assumption.
  - intros Hsa Hra Hne.
    rewrite (get_data_recv_fails raw net self e) by assumption.
    destruct e; try reflexivity. contradiction.
Qed.

Lemma get_data_passes_transport_errors_witness :
  fst (get_data false (mk_network (Raised socket_timeout) (Returned sample_frame))
         calibrated_sensor) = Raised socket_timeout /\
  fst (get_data false (mk_network (Returned tt) (Raised OSError))
         calibrated_sensor) = Raised OSError.
Proof.
  split.
  - apply (proj1 (get_data_passes_transport_errors false
                    (mk_network (Raised socket_timeout) (Returned sample_frame))
                    calibrated_sensor socket_timeout eq_refl eq_refl)).
    reflexivity.
  - apply (proj2 (get_data_passes_transport_errors false
                    (mk_network (Returned tt) (Raised OSError))
                    calibrated_sensor OSError eq_refl eq_refl));
      [reflexivity | reflexivity | discriminate].
Defined.

(** ** A response with no sample in it *)

Lemma raw_value_past_end (received : bytes) (OFF i : nat) :
  (List.length received <= OFF)%nat -> raw_value received OFF i = 0.
Proof.
  intros Hlen. unfold raw_value, py_slice.
  rewrite skipn_all2 by lia. rewrite firstn_nil. reflexivity.
Qed.

Lemma py_truediv_zero_dividend (s d : Z) :
  d <> 0 -> py_truediv (0 * s) d = Returned (S754_zero (d <? 0)).
Proof.
  intros Hd. unfold py_truediv. rewrite Z.mul_0_l.
  destruct d as [|p|p]; [contradiction| |]; reflexivity.
Qed.

(** X9: a response of 4 bytes or fewer, the empty one of a peer that
    hung up included, is not refused: on a calibrated object with
    non-zero counts a raw read returns zero on all six axes (a zero with
    the sign of the counts), as if no force were applied. *)
Theorem get_data_short_response_reads_zero :
  forall (data : bytes) (self : ATIForceTorqueSensor)
         (sF0 sF1 sF2 sT0 sT1 sT2 cF cT : Z),
    connected self = true ->
    closed (sock self) = false ->
    (List.length data <= 4)%nat ->
    scaling_factors_F self = [sF0; sF1; sF2] ->
    scaling_factors_T self = [sT0; sT1; sT2] ->
    counts_per_force self = Some cF ->
    counts_per_torque self = Some cT ->
    cF <> 0 ->
    cT <> 0 ->
    fst (get_data true (answers data) self) =
    Returned (Some [PyFloat (S754_zero (cF <? 0)); PyFloat (S754_zero (cF <? 0));
                    PyFloat (S754_zero (cF <? 0))],
              Some [PyFloat (S754_zero (cT <? 0)); PyFloat (S754_zero (cT <? 0));
                    PyFloat (S754_zero (cT <? 0))]).
Proof.
  intros data self sF0 sF1 sF2 sT0 sT1 sT2 cF cT Hc Hs Hlen HsF HsT HcF HcT HnF HnT.
  assert (Hrecv : (List.length (firstn BUFFER_SIZE data) <= 4)%nat)
    by (rewrite length_firstn; lia).
  assert (HF : forall i s,
             py_truediv (raw_value (firstn BUFFER_SIZE data) F_BYTE_OFFSET i * s) cF
             = Returned (S754_zero (cF <? 0))).
  { intros i s. rewrite raw_value_past_end by (unfold F_BYTE_OFFSET; lia).
    apply py_truediv_zero_dividend; assumption. }
  assert (HT : forall i s,
             py_truediv (raw_value (firstn BUFFER_SIZE data) T_BYTE_OFFSET i * s) cT
             = Returned (S754_zero (cT <? 0))).
  { intros i s. rewrite raw_value_past_end by (unfold T_BYTE_OFFSET; lia).
    apply py_truediv_zero_dividend; assumption. }
  apply (get_data_returns true (answers data) data self cF cT
           sF0 sF1 sF2 sT0 sT1 sT2 _ _ _ _ _ _
           pos_zero pos_zero pos_zero pos_zero pos_zero pos_zero);
    try assumption; try reflexivity;
    try (rewrite HsF; reflexivity); try (rewrite HsT; reflexivity);
    try apply HF; try apply HT; intros H; discriminate H.
Qed.

Lemma get_data_short_response_reads_zero_witness :
  fst (get_data true (answers []) calibrated_sensor) =
  Returned (Some [PyFloat pos_zero; PyFloat pos_zero; PyFloat pos_zero],
            Some [PyFloat pos_zero; PyFloat pos_zero; PyFloat pos_zero]).
Proof.
  apply (get_data_short_response_reads_zero [] calibrated_sensor
           10 10 10 5 5 5 1000 1000);
    try reflexivity; try (simpl; lia); discriminate.
Defined.

(** ** Zeroing twice *)

(** X10: zeroing is idempotent: when [zero_sensor] returned and is called
    again with the same answer of the network, it returns again and both
    bias lists are what the first call left. *)
Theorem zero_sensor_twice_same_bias :
  forall (net : network) (self self1 : ATIForceTorqueSensor),
    zero_sensor net self = (Returned tt, self1) ->
    fst (zero_sensor net self1) = Returned tt /\
    F_bias (snd (zero_sensor net self1)) = F_bias self1 /\
    T_bias (snd (zero_sensor net self1)) = T_bias self1.
Proof.
  intros net self self1 Hz.
  rewrite zero_sensor_unfold in Hz.
  destruct (get_data true net self) as [[[[F|] [T|]]|e] s1] eqn:Hg;
    try discriminate Hz.
  injection Hz as <-.
  destruct (get_data_raw_inv net self F T) as (Hc & Hs & Hsa & data & Hra & Hg0 & _);
    [rewrite Hg; reflexivity|].
  rewrite Hg in Hg0. injection Hg0 as ->.
  apply (zero_sensor_returns net _ F T).
  rewrite (get_data_raw_same net _ self), Hg; try reflexivity.
  unfold same_calibration. repeat split.
Qed.

Lemma zero_sensor_twice_same_bias_witness :
  fst (zero_sensor (answers sample_frame) zeroed_sensor) = Returned tt /\
  F_bias (snd (zero_sensor (answers sample_frame) zeroed_sensor)) = F_bias zeroed_sensor /\
  T_bias (snd (zero_sensor (answers sample_frame) zeroed_sensor)) = T_bias zeroed_sensor.
Proof.
  apply (zero_sensor_twice_same_bias (answers sample_frame) calibrated_sensor zeroed_sensor).
  vm_compute. reflexivity.
Defined.

(** ** The vectors a read returns *)

Lemma py_sub_float_is_float (x : float) (b v : pynum) :
  py_sub (PyFloat x) b = Returned v -> exists y, v = PyFloat y.
Proof.
  unfold py_sub. destruct b as [z|f]; simpl as_float at 1.
  - destruct (as_float (PyInt z)); [|discriminate].
    intros H. injection H as <-. eexists; reflexivity.
  - simpl. intros H. injection H as <-. eexists; reflexivity.
Qed.

(** An axis that converts stores a float; a finite one in a raw read. *)
Lemma convert_axis_item raw data OFF sc cn bias i V self V' :
  fst (convert_axis raw data OFF sc cn bias i V self) = Returned V' ->
  exists y,
    py_setitem V i (PyFloat y) = Returned V' /\ (raw = true -> is_finite y = true).
Proof.
  unfold convert_axis, bind, attr, lift, operand, ret, raise.
  destruct (py_index (sc self) i) as [s|]; [|discriminate].
  destruct (cn self) as [d|]; [|discriminate]. simpl.
  destruct (py_truediv _ _) as [x|] eqn:Ex; [|discriminate].
  destruct (py_setitem V i (PyFloat x)) as [V1|] eqn:EV; [|discriminate].
  destruct raw; simpl.
  - intros H. injection H as <-. exists x.
    split; [exact EV | intros _; exact (py_truediv_finite _ _ _ Ex)].
  - destruct (py_setitem_then V i _ V1 EV) as [Hi Hset]. rewrite Hi.
    destruct (py_index (bias self) i) as [b|]; [|discriminate].
    destruct (py_sub (PyFloat x) b) as [v|] eqn:Ev; [|discriminate].
    destruct (py_sub_float_is_float x b v Ev) as [y ->].
    rewrite Hset. intros H. exists y. split; [exact H | discriminate].
Qed.

Lemma convert_loop_items raw data OFF sc cn bias self v0 v1 v2 V' :
  fst (for_in (seq 0 3) (convert_axis raw data OFF sc cn bias) [v0; v1; v2] self)
    = Returned V' ->
  exists y0 y1 y2,
    three_floats V' y0 y1 y2 /\
    (raw = true ->
     is_finite y0 = true /\ is_finite y1 = true /\ is_finite y2 = true).
Proof.
  rewrite for_in_3. unfold bind, ret.
  pose proof (convert_axis_self raw data OFF sc cn bias 0 [v0; v1; v2] self) as Hs0.
  destruct (convert_axis raw data OFF sc cn bias 0 [v0; v1; v2] self)
    as [[V0|e0] self0] eqn:E0; [|discriminate].
  simpl in Hs0. subst self0.
  apply (f_equal fst) in E0. simpl fst in E0.
  apply convert_axis_item in E0. destruct E0 as (y0 & HV0 & Hf0).
  simpl in HV0. injection HV0 as <-.
  pose proof (convert_axis_self raw data OFF sc cn bias 1 [PyFloat y0; v1; v2] self) as Hs1.
  destruct (convert_axis raw data OFF sc cn bias 1 [PyFloat y0; v1; v2] self)
    as [[V1|e1] self1] eqn:E1; [|discriminate].
  simpl in Hs1. subst self1.
  apply (f_equal fst) in E1. simpl fst in E1.
  apply convert_axis_item in E1. destruct E1 as (y1 & HV1 & Hf1).
  simpl in HV1. injection HV1 as <-.
  pose proof (convert_axis_self raw data OFF sc cn bias 2
                [PyFloat y0; PyFloat y1; v2] self) as Hs2.
  destruct (convert_axis raw data OFF sc cn bias 2 [PyFloat y0; PyFloat y1; v2] self)
    as [[V2|e2] self2] eqn:E2; [|discriminate].
  simpl in Hs2. subst self2.
  apply (f_equal fst) in E2. simpl fst in E2.
  apply convert_axis_item in E2. destruct E2 as (y2 & HV2 & Hf2).
  simpl in HV2. injection HV2 as <-.
  simpl. intros H. injection H as <-.
  exists y0, y1, y2. split; [reflexivity|].
  intros Hr. repeat split; auto.
Qed.

(** A read that returned two vectors ran both loops to their end. *)
Lemma get_data_inv raw net self F T :
  fst (get_data raw net self) = Returned (Some F, Some T) ->
  connected self = true /\ closed (sock self) = false /\
  sendall_answer net = Returned tt /\
  exists data,
    recv_answer net = Returned data /\
    fst (for_in (seq 0 3)
           (convert_axis raw (firstn BUFFER_SIZE data) F_BYTE_OFFSET
              scaling_factors_F counts_per_force F_bias)
           [PyInt 0; PyInt 0; PyInt 0] (after_exchange self)) = Returned F /\
    fst (for_in (seq 0 3)
           (convert_axis raw (firstn BUFFER_SIZE data) T_BYTE_OFFSET
              scaling_factors_T counts_per_torque T_bias)
           [PyInt 0; PyInt 0; PyInt 0] (after_exchange self)) = Returned T.
Proof.
  intros H.
  destruct (connected self) eqn:Hc;
    [|rewrite get_data_not_connected in H by assumption; discriminate].
  destruct (closed (sock self)) eqn:Hs;
    [rewrite get_data_closed in H by assumption; discriminate|].
  destruct (sendall_answer net) as [[]|e] eqn:Hsa;
    [|rewrite (get_data_send_fails raw net self e) in H by assumption; discriminate].
  destruct (recv_answer net) as [data|e] eqn:Hra;
    [|rewrite (get_data_recv_fails raw net self e) in H by assumption;
      destruct e; discriminate].
  repeat split. exists data. split; [reflexivity|].
  rewrite (get_data_connected raw net data self) in H by assumption.
  unfold try_except_timeout, bind, ret in H.
  pose proof (convert_loop_self raw (firstn BUFFER_SIZE data) F_BYTE_OFFSET
                scaling_factors_F counts_per_force F_bias (seq 0 3)
                [PyInt 0; PyInt 0; PyInt 0] (after_exchange self)) as HsF.
  destruct (for_in (seq 0 3) (convert_axis raw _ F_BYTE_OFFSET _ _ _) _ _)
    as [[F1|e1] self1]; simpl in HsF; subst self1;
    [|destruct e1; discriminate].
  destruct (for_in (seq 0 3) (convert_axis raw _ T_BYTE_OFFSET _ _ _) _ _)
    as [[T1|e2] self2];
    [|destruct e2; discriminate].
  simpl in H. injection H as <- <-. split; reflexivity.
Qed.

(** X11: whenever [get_data] returns two vectors, each is a list of
    exactly three floats, never an int left over from the initial
    [[0, 0, 0]]; in a raw read all six floats are finite, never an
    infinity or a NaN. *)
Theorem get_data_returns_three_floats :
  forall (raw : bool) (net : network) (self : ATIForceTorqueSensor)
         (F T : list pynum),
    fst (get_data raw net self) = Returned (Some F, Some T) ->
    exists x0 x1 x2 y0 y1 y2,
      three_floats F x0 x1 x2 /\ three_floats T y0 y1 y2 /\
      (raw = true ->
       Forall (fun x => is_finite x = true) [x0; x1; x2; y0; y1; y2]).
Proof.
  intros raw net self F T H.
  destruct (get_data_inv raw net self F T H) as (_ & _ & _ & data & _ & HF & HT).
  apply convert_loop_items in HF. destruct HF as (x0 & x1 & x2 & HF & HfF).
  apply convert_loop_items in HT. destruct HT as (y0 & y1 & y2 & HT & HfT).
  exists x0, x1, x2, y0, y1, y2. repeat split; try assumption.
  intros Hr. destruct (HfF Hr) as (? & ? & ?). destruct (HfT Hr) as (? & ? & ?).
  repeat constructor; assumption.
Qed.

Lemma get_data_returns_three_floats_witness :
  exists x0 x1 x2 y0 y1 y2,
    three_floats [PyFloat one; PyFloat one; PyFloat one] x0 x1 x2 /\
    three_floats [PyFloat quarter; PyFloat quarter; PyFloat quarter] y0 y1 y2 /\
    (true = true ->
     Forall (fun x => is_finite x = true) [x0; x1; x2; y0; y1; y2]).
Proof.
  apply (get_data_returns_three_floats true (answers sample_frame) calibrated_sensor).
  vm_compute. reflexivity.
Defined.

(** ** Corrected reads against raw reads *)

(** X12: on the same answer of the network, the corrected read is the
    raw read minus the bias, axis by axis: when the raw read returns
    [x] on an axis and the bias list holds a number whose float is [f]
    there, the corrected read returns the float difference [x - f]. *)
Theorem corrected_read_is_raw_minus_bias :
  forall (net : network) (self : ATIForceTorqueSensor)
         (x0 x1 x2 y0 y1 y2 f0 f1 f2 g0 g1 g2 : float),
    fst (get_data true net self) =
    Returned (Some [PyFloat x0; PyFloat x1; PyFloat x2],
              Some [PyFloat y0; PyFloat y1; PyFloat y2]) ->
    bias_at (F_bias self) 0 f0 /\ bias_at (F_bias self) 1 f1 /\
    bias_at (F_bias self) 2 f2 ->
    bias_at (T_bias self) 0 g0 /\ bias_at (T_bias self) 1 g1 /\
    bias_at (T_bias self) 2 g2 ->
    fst (get_data false net self) =
    Returned (Some [PyFloat (float_sub x0 f0); PyFloat (float_sub x1 f1);
                    PyFloat (float_sub x2 f2)],
              Some [PyFloat (float_sub y0 g0); PyFloat (float_sub y1 g1);
                    PyFloat (float_sub y2 g2)]).
Proof.
  intros net self x0 x1 x2 y0 y1 y2 f0 f1 f2 g0 g1 g2 Hraw HbF HbT.
  destruct (get_data_raw_inv net self _ _ Hraw)
    as (Hc & Hs & Hsa & data & Hra & _ & HF & HT).
  apply convert_loop_raw_inv in HF.
  destruct HF as (dF & sF0 & sF1 & sF2 & a0 & a1 & a2 &
                  HF0 & HF1 & HF2 & HdF & HxF0 & HxF1 & HxF2 & HeqF).
  injection HeqF as -> -> ->.
  apply convert_loop_raw_inv in HT.
  destruct HT as (dT & sT0 & sT1 & sT2 & b0 & b1 & b2 &
                  HT0 & HT1 & HT2 & HdT & HxT0 & HxT1 & HxT2 & HeqT).
  injection HeqT as -> -> ->.
  apply (get_data_returns false net data self dF dT
           sF0 sF1 sF2 sT0 sT1 sT2 a0 a1 a2 b0 b1 b2 f0 f1 f2 g0 g1 g2);
    try assumption; intros _; assumption.
Qed.

Lemma corrected_read_is_raw_minus_bias_witness :
  fst (get_data false (answers sample_frame) zeroed_sensor) =
  Returned (Some [PyFloat (float_sub one one); PyFloat (float_sub one one);
                  PyFloat (float_sub one one)],
            Some [PyFloat (float_sub quarter quarter);
                  PyFloat (float_sub quarter quarter);
                  PyFloat (float_sub quarter quarter)]).
Proof.
  apply (corrected_read_is_raw_minus_bias (answers sample_frame) zeroed_sensor
           one one one quarter quarter quarter one one one quarter quarter quarter).
  - vm_compute. reflexivity.
  - repeat split; eexists; split; reflexivity.
  - repeat split; eexists; split; reflexivity.
Defined.

Lemma float_sub_pos_zero (x : float) :
  is_finite x = true -> float_sub x pos_zero = x.
Proof.
  destruct x as [[|]|s| |s m e]; simpl; try discriminate; reflexivity.
Qed.

(** With the int 0 as bias the corrected axis is the raw axis. *)
Lemma convert_axis_zero_bias data OFF sc cn bias i V self :
  py_index (bias self) i = Returned (PyInt 0) ->
  convert_axis false data OFF sc cn bias i V self =
  convert_axis true data OFF sc cn bias i V self.
Proof.
  intros Hb. unfold convert_axis, bind, attr, lift, operand, ret, raise.
  destruct (py_index (sc self) i) as [s|]; [|reflexivity].
  destruct (cn self) as [d|]; [|reflexivity]. simpl.
  destruct (py_truediv _ _) as [x|] eqn:Ex; [|reflexivity].
  destruct (py_setitem V i (PyFloat x)) as [V1|] eqn:EV; [|reflexivity].
  simpl. destruct (py_setitem_then V i _ V1 EV) as [Hi Hset].
  rewrite Hi, Hb.
  change (py_sub (PyFloat x) (PyInt 0))
    with (Returned (PyFloat (float_sub x pos_zero))).
  rewrite (float_sub_pos_zero x (py_truediv_finite _ _ _ Ex)).
  rewrite Hset, EV. reflexivity.
Qed.

Lemma convert_loop_zero_bias data OFF sc cn bias V self :
  py_index (bias self) 0 = Returned (PyInt 0) ->
  py_index (bias self) 1 = Returned (PyInt 0) ->
  py_index (bias self) 2 = Returned (PyInt 0) ->
  for_in (seq 0 3) (convert_axis false data OFF sc cn bias) V self =
  for_in (seq 0 3) (convert_axis true data OFF sc cn bias) V self.
Proof.
  intros H0 H1 H2. rewrite !for_in_3. unfold bind.
  rewrite (convert_axis_zero_bias data OFF sc cn bias 0 V self H0).
  pose proof (convert_axis_self true data OFF sc cn bias 0 V self) as Hs0.
  destruct (convert_axis true data OFF sc cn bias 0 V self) as [[V0|e0] s0];
    simpl in Hs0; subst s0; [|reflexivity].
  rewrite (convert_axis_zero_bias data OFF sc cn bias 1 V0 self H1).
  pose proof (convert_axis_self true data OFF sc cn bias 1 V0 self) as Hs1.
  destruct (convert_axis true data OFF sc cn bias 1 V0 self) as [[V1|e1] s1];
    simpl in Hs1; subst s1; [|reflexivity].
  rewrite (convert_axis_zero_bias data OFF sc cn bias 2 V1 self H2).
  reflexivity.
Qed.

(** X13: as long as both bias lists are the [[0, 0, 0]] of [__init__],
    that is before any [zero_sensor] returned, a corrected read has the
    outcome of a raw read, for every answer of the network and every
    state of the connection and of the calibration. *)
Theorem unzeroed_corrected_read_is_raw_read :
  forall (net : network) (self : ATIForceTorqueSensor),
    F_bias self = [PyInt 0; PyInt 0; PyInt 0] ->
    T_bias self = [PyInt 0; PyInt 0; PyInt 0] ->
    fst (get_data false net self) = fst (get_data true net self).
Proof.
  intros net self HbF HbT.
  destruct (connected self) eqn:Hc.
  2:{ rewrite !get_data_not_connected by assumption. reflexivity. }
  destruct (closed (sock self)) eqn:Hs.
  1:{ rewrite !get_data_closed by assumption. reflexivity. }
  destruct (sendall_answer net) as [[]|e] eqn:Hsa.
  2:{ rewrite (get_data_send_fails false net self e),
              (get_data_send_fails true net self e) by assumption.
      reflexivity. }
  destruct (recv_answer net) as [data|e] eqn:Hra.
  2:{ rewrite (get_data_recv_fails false net self e),
              (get_data_recv_fails true net self e) by assumption.
      reflexivity. }
  rewrite (get_data_connected false net data self),
          (get_data_connected true net data self) by assumption.
  unfold try_except_timeout, bind.
  assert (HiF : forall i, py_index (F_bias (after_exchange self)) i
                          = py_index [PyInt 0; PyInt 0; PyInt 0] i)
    by (intros i; change (F_bias (after_exchange self)) with (F_bias self);
        rewrite HbF; reflexivity).
  assert (HiT : forall i, py_index (T_bias (after_exchange self)) i
                          = py_index [PyInt 0; PyInt 0; PyInt 0] i)
    by (intros i; change (T_bias (after_exchange self)) with (T_bias self);
        rewrite HbT; reflexivity).
  rewrite (convert_loop_zero_bias (firstn BUFFER_SIZE data) F_BYTE_OFFSET
             scaling_factors_F counts_per_force F_bias _ (after_exchange self)
             (HiF 0%nat) (HiF 1%nat) (HiF 2%nat)).
  pose proof (convert_loop_self true (firstn BUFFER_SIZE data) F_BYTE_OFFSET
                scaling_factors_F counts_per_force F_bias (seq 0 3)
                [PyInt 0; PyInt 0; PyInt 0] (after_exchange self)) as HsF.
  destruct (for_in (seq 0 3) (convert_axis true _ F_BYTE_OFFSET _ _ _) _ _)
    as [[F1|e1] self1]; simpl in HsF; subst self1; [|reflexivity].
  rewrite (convert_loop_zero_bias (firstn BUFFER_SIZE data) T_BYTE_OFFSET
             scaling_factors_T counts_per_torque T_bias _ (after_exchange self)
             (HiT 0%nat) (HiT 1%nat) (HiT 2%nat)).
  reflexivity.
Qed.

Lemma unzeroed_corrected_read_is_raw_read_witness :
  fst (get_data false (answers sample_frame) calibrated_sensor) =
  fst (get_data true (answers sample_frame) calibrated_sensor).
Proof.
  apply (unzeroed_corrected_read_is_raw_read (answers sample_frame) calibrated_sensor);
    reflexivity.
Defined.

(** ** Reading after a failed [__enter__] *)

Lemma convert_loop_no_factor raw data OFF sc cn bias V self :
  sc self = [] ->
  for_in (seq 0 3) (convert_axis raw data OFF sc cn bias) V self =
  (Raised IndexError, self).
Proof.
  intros Hsc. rewrite for_in_3.
  unfold bind at 1. unfold convert_axis, bind, attr, lift. rewrite Hsc. reflexivity.
Qed.

(** X14: a calibration response shorter than 4 bytes makes [__enter__]
    of a fresh object raise [IndexError]; the object is left connected,
    its socket open, with no calibration, and from then on every read
    that is answered, raw or not, raises [IndexError] instead of
    returning a sample. *)
Theorem enter_tiny_response_then_reads_raise :
  forall (data0 : bytes) (self : ATIForceTorqueSensor),
    closed (sock self) = false ->
    scaling_factors_F self = [] ->
    (List.length data0 < 4)%nat ->
    fst (__enter__ (Returned tt) (answers data0) self) = Raised IndexError /\
    connected (snd (__enter__ (Returned tt) (answers data0) self)) = true /\
    closed (sock (snd (__enter__ (Returned tt) (answers data0) self))) = false /\
    forall raw data,
      fst (get_data raw (answers data) (snd (__enter__ (Returned tt) (answers data0) self)))
      = Raised IndexError.
Proof.
  intros data0 self Hs Hsf Hlen.
  assert (Hrun : __enter__ (Returned tt) (answers data0) self =
                 (Raised IndexError,
                  set_connected true
                    (set_sock
                       (record_call (call_recv BUFFER_SIZE)
                          (record_call (call_sendall read_calibration_command)
                             (record_call call_settimeout
                                (record_call call_connect (sock self)))))
                       self))).
  { destruct self as [cn [cl cs] fb tb sf st fu tu cf ct].
    simpl in Hs. subst cl.
    unfold __enter__, get_calibration_info, bind, attr, lift, assign,
      try_except_timeout.
    cbn -[firstn parse_calibration BUFFER_SIZE].
    rewrite (parse_calibration_tiny data0 Hlen). reflexivity. }
  rewrite Hrun. simpl fst. simpl snd.
  split; [reflexivity|]. split; [reflexivity|].
  split; [destruct self as [cn [cl cs] fb tb sf st fu tu cf ct]; exact Hs|].
  intros raw data.
  rewrite (get_data_connected raw (answers data) data);
    [ | reflexivity | destruct self; exact Hs | reflexivity | reflexivity].
  unfold try_except_timeout. unfold bind at 1.
  rewrite convert_loop_no_factor; [reflexivity|].
  destruct self; exact Hsf.
Qed.

Lemma enter_tiny_response_then_reads_raise_witness :
  fst (__enter__ (Returned tt) (answers [x00; x00; x01]) __init__) = Raised IndexError /\
  connected (snd (__enter__ (Returned tt) (answers [x00; x00; x01]) __init__)) = true /\
  closed (sock (snd (__enter__ (Returned tt) (answers [x00; x00; x01]) __init__))) = false /\
  forall raw data,
    fst (get_data raw (answers data)
           (snd (__enter__ (Returned tt) (answers [x00; x00; x01]) __init__)))
    = Raised IndexError.
Proof.
  apply (enter_tiny_response_then_reads_raise [x00; x00; x01] __init__);
    try reflexivity.
  simpl. lia.
Defined.

(** X15: when the calibration [recv] of [__enter__] times out, the
    exception raised is the recv-timeout one and the socket is closed,
    yet [connected] is [True]; from then on every [get_data], whatever
    the network would answer, raises [OSError] at its [sendall] instead
    of reporting [(None, None)]. *)
Theorem enter_timeout_then_reads_raise :
  forall (net : network) (self : ATIForceTorqueSensor),
    closed (sock self) = false ->
    sendall_answer net = Returned tt ->
    recv_answer net = Raised socket_timeout ->
    fst (__enter__ (Returned tt) net self) = Raised (Exception msg_recv_timeout) /\
    connected (snd (__enter__ (Returned tt) net self)) = true /\
    closed (sock (snd (__enter__ (Returned tt) net self))) = true /\
    forall raw net',
      fst (get_data raw net' (snd (__enter__ (Returned tt) net self))) = Raised OSError.
Proof.
  intros net self Hs Hsa Hra.
  destruct self as [cn [cl cs] fb tb sf st fu tu cf ct].
  destruct net as [sa ra]. simpl in Hs, Hsa, Hra. subst cl sa ra.
  split; [reflexivity|]. split; [reflexivity|]. split; [reflexivity|].
  intros raw net'. apply get_data_closed; reflexivity.
Qed.

Lemma enter_timeout_then_reads_raise_witness :
  fst (__enter__ (Returned tt) times_out __init__) = Raised (Exception msg_recv_timeout) /\
  connected (snd (__enter__ (Returned tt) times_out __init__)) = true /\
  closed (sock (snd (__enter__ (Returned tt) times_out __init__))) = true /\
  forall raw net',
    fst (get_data raw net' (snd (__enter__ (Returned tt) times_out __init__)))
    = Raised OSError.
Proof.
  apply (enter_timeout_then_reads_raise times_out __init__); reflexivity.
Defined.

(** ** The bytes a read looks at *)

Lemma py_slice_sub {A : Type} (l : list A) (a b c e : nat) :
  (a + e <= b)%nat ->
  py_slice (py_slice l a b) c e = py_slice l (a + c) (a + e).
Proof.
  intros H. unfold py_slice.
  rewrite skipn_firstn_comm, firstn_firstn, skipn_skipn.
  replace (Nat.min (e - c) (b - a - c)) with (a + e - (a + c))%nat by lia.
  replace (c + a)%nat with (a + c)%nat by lia. reflexivity.
Qed.

Lemma py_slice_firstn {A : Type} (l : list A) (n c e : nat) :
  (e <= n)%nat -> py_slice (firstn n l) c e = py_slice l c e.
Proof.
  intros H. unfold py_slice.
  rewrite skipn_firstn_comm, firstn_firstn.
  replace (Nat.min (e - c) (n - c)) with (e - c)%nat by lia. reflexivity.
Qed.

(** The six raw counts are read inside [data[4:16]]. *)
Lemma raw_value_window (data : bytes) (i : nat) :
  (i < 3)%nat ->
  raw_value (firstn BUFFER_SIZE data) F_BYTE_OFFSET i
    = raw_value (py_slice data 4 16) 0 i /\
  raw_value (firstn BUFFER_SIZE data) T_BYTE_OFFSET i
    = raw_value (py_slice data 4 16) 6 i.
Proof.
  intros Hi. unfold raw_value, F_BYTE_OFFSET, T_BYTE_OFFSET.
  rewrite !py_slice_firstn by (unfold BUFFER_SIZE; lia).
  rewrite !py_slice_sub by lia.
  split; do 2 f_equal; lia.
Qed.

Lemma convert_axis_same_count raw data data' OFF sc cn bias i V self :
  raw_value data OFF i = raw_value data' OFF i ->
  convert_axis raw data OFF sc cn bias i V self =
  convert_axis raw data' OFF sc cn bias i V self.
Proof.
  unfold raw_value, convert_axis. intros H. rewrite H. reflexivity.
Qed.

Lemma for_in_ext {A : Type} (body1 body2 : nat -> A -> M A) (idx : list nat) :
  (forall i, In i idx -> forall acc self, body1 i acc self = body2 i acc self) ->
  forall acc self, for_in idx body1 acc self = for_in idx body2 acc self.
Proof.
  induction idx as [|i rest IH]; intros H acc self; [reflexivity|].
  change (for_in (i :: rest) body1 acc self)
    with (bind (body1 i acc) (fun a => for_in rest body1 a) self).
  change (for_in (i :: rest) body2 acc self)
    with (bind (body2 i acc) (fun a => for_in rest body2 a) self).
  unfold bind. rewrite (H i (or_introl eq_refl)).
  destruct (body2 i acc self) as [[a|e] s1]; [|reflexivity].
  apply IH. intros j Hj. apply H. right. exact Hj.
Qed.

(** X16: a read looks at bytes 4 to 15 of the response and at nothing
    else: two responses with the same [data[4:16]], whatever their first
    four bytes, their length and what follows byte 15, give [get_data]
    the same outcome. *)
Theorem get_data_reads_bytes_4_to_15 :
  forall (raw : bool) (data data' : bytes) (self : ATIForceTorqueSensor),
    py_slice data 4 16 = py_slice data' 4 16 ->
    fst (get_data raw (answers data) self) = fst (get_data raw (answers data') self).
Proof.
  intros raw data data' self Hwin.
  destruct (connected self) eqn:Hc.
  2:{ rewrite !get_data_not_connected by assumption. reflexivity. }
  destruct (closed (sock self)) eqn:Hs.
  1:{ rewrite !get_data_closed by assumption. reflexivity. }
  rewrite (get_data_connected raw (answers data) data self),
          (get_data_connected raw (answers data') data' self)
    by (assumption || reflexivity).
  assert (Hcount : forall i, In i (seq 0 3) ->
            raw_value (firstn BUFFER_SIZE data) F_BYTE_OFFSET i
              = raw_value (firstn BUFFER_SIZE data') F_BYTE_OFFSET i /\
            raw_value (firstn BUFFER_SIZE data) T_BYTE_OFFSET i
              = raw_value (firstn BUFFER_SIZE data') T_BYTE_OFFSET i).
  { intros i Hi. apply in_seq in Hi.
    destruct (raw_value_window data i ltac:(lia)) as [-> ->].
    destruct (raw_value_window data' i ltac:(lia)) as [-> ->].
    rewrite Hwin. split; reflexivity. }
  unfold try_except_timeout, bind.
  rewrite (for_in_ext
             (convert_axis raw (firstn BUFFER_SIZE data) F_BYTE_OFFSET
                scaling_factors_F counts_per_force F_bias)
             (convert_axis raw (firstn BUFFER_SIZE data') F_BYTE_OFFSET
                scaling_factors_F counts_per_force F_bias) (seq 0 3))
    by (intros i Hi acc s; apply convert_axis_same_count, (Hcount i Hi)).
  destruct (for_in (seq 0 3) (convert_axis raw _ F_BYTE_OFFSET _ _ _) _ _)
    as [[F1|e1] self1]; [|reflexivity].
  rewrite (for_in_ext
             (convert_axis raw (firstn BUFFER_SIZE data) T_BYTE_OFFSET
                scaling_factors_T counts_per_torque T_bias)
             (convert_axis raw (firstn BUFFER_SIZE data') T_BYTE_OFFSET
                scaling_factors_T counts_per_torque T_bias) (seq 0 3))
    by (intros i Hi acc s; apply convert_axis_same_count, (Hcount i Hi)).
  reflexivity.
Qed.

Lemma get_data_reads_bytes_4_to_15_witness :
  fst (get_data false (answers sample_frame) calibrated_sensor) =
  fst (get_data false
         (answers ([xff; xff; xff; xff] ++ skipn 4 sample_frame ++ [xab; xcd]))
         calibrated_sensor).
Proof.
  apply (get_data_reads_bytes_4_to_15 false sample_frame
           ([xff; xff; xff; xff] ++ skipn 4 sample_frame ++ [xab; xcd])
           calibrated_sensor).
  reflexivity.
Defined.

(** X17: no response makes a read of a calibrated object raise: with
    three 16-bit scaling factors per vector, non-zero counts and, for a
    corrected read, bias lists that hold numbers, [get_data] returns two
    vectors for a response of any length and content, converting
    whatever raw counts the slices of the response give. *)
Theorem get_data_returns_for_every_response :
  forall (raw : bool) (data : bytes) (self : ATIForceTorqueSensor)
         (sF0 sF1 sF2 sT0 sT1 sT2 cF cT : Z)
         (bF0 bF1 bF2 bT0 bT1 bT2 : float),
    connected self = true ->
    closed (sock self) = false ->
    scaling_factors_F self = [sF0; sF1; sF2] ->
    scaling_factors_T self = [sT0; sT1; sT2] ->
    Forall int16 [sF0; sF1; sF2; sT0; sT1; sT2] ->
    counts_per_force self = Some cF ->
    counts_per_torque self = Some cT ->
    cF <> 0 ->
    cT <> 0 ->
    (raw = false ->
     bias_at (F_bias self) 0 bF0 /\ bias_at (F_bias self) 1 bF1 /\
     bias_at (F_bias self) 2 bF2) ->
    (raw = false ->
     bias_at (T_bias self) 0 bT0 /\ bias_at (T_bias self) 1 bT1 /\
     bias_at (T_bias self) 2 bT2) ->
    let count := raw_value (firstn BUFFER_SIZE data) in
    fst (get_data raw (answers data) self) =
    Returned (Some [PyFloat (physical raw (count F_BYTE_OFFSET 0%nat) sF0 cF bF0);
                    PyFloat (physical raw (count F_BYTE_OFFSET 1%nat) sF1 cF bF1);
                    PyFloat (physical raw (count F_BYTE_OFFSET 2%nat) sF2 cF bF2)],
              Some [PyFloat (physical raw (count T_BYTE_OFFSET 0%nat) sT0 cT bT0);
                    PyFloat (physical raw (count T_BYTE_OFFSET 1%nat) sT1 cT bT1);
                    PyFloat (physical raw (count T_BYTE_OFFSET 2%nat) sT2 cT bT2)]).
Proof.
  intros raw data self sF0 sF1 sF2 sT0 sT1 sT2 cF cT bF0 bF1 bF2 bT0 bT1 bT2
         Hc Hs HsF HsT Hint HcF HcT HnF HnT HbF HbT count.
  repeat match goal with
         | H : Forall _ (_ :: _) |- _ => inversion H; subst; clear H
         | H : Forall _ [] |- _ => clear H
         end.
  unfold physical, count.
  apply (get_data_returns raw (answers data) data self cF cT sF0 sF1 sF2 sT0 sT1 sT2);
    try assumption; try reflexivity;
    try (rewrite HsF; reflexivity); try (rewrite HsT; reflexivity);
    apply py_truediv_int16; try assumption; apply raw_value_int16.
Qed.

Lemma get_data_returns_for_every_response_witness :
  fst (get_data true (answers [x00; x00; x00; x00; x9c]) calibrated_sensor) =
  Returned (Some [PyFloat (physical true (-100) 10 1000 pos_zero);
                  PyFloat (physical true 0 10 1000 pos_zero);
                  PyFloat (physical true 0 10 1000 pos_zero)],
            Some [PyFloat (physical true 0 5 1000 pos_zero);
                  PyFloat (physical true 0 5 1000 pos_zero);
                  PyFloat (physical true 0 5 1000 pos_zero)]).
Proof.
  apply (get_data_returns_for_every_response true [x00; x00; x00; x00; x9c]
           calibrated_sensor 10 10 10 5 5 5 1000 1000
           pos_zero pos_zero pos_zero pos_zero pos_zero pos_zero);
    try reflexivity; try discriminate.
  repeat constructor; unfold int16; lia.
Defined.

(** ** The bytes the calibration looks at *)

Lemma py_index_window {A : Type} (l : list A) (n a b i : nat) :
  (a + i < b)%nat -> (b <= n)%nat ->
  py_index (firstn n l) (a + i) = py_index (py_slice l a b) i.
Proof.
  intros Hi Hn. unfold py_index, py_slice.
  rewrite !nth_error_firstn, nth_error_skipn.
  destruct (Nat.ltb_spec (a + i) n); [|lia].
  destruct (Nat.ltb_spec i (b - a)); [reflexivity | lia].
Qed.

Lemma get_calibration_info_closed net self :
  connected self = true -> closed (sock self) = true ->
  fst (get_calibration_info net self) = Raised OSError.
Proof.
  intros Hc Hs. destruct self as [cn [cl cs] fb tb sf st fu tu cf ct].
  simpl in Hc, Hs. subst cn cl. reflexivity.
Qed.

(** X18: the calibration looks at bytes 2 to 23 of the response and at
    nothing else: the two header bytes and whatever follows byte 23 have
    no effect on what [get_calibration_info] returns or raises. *)
Theorem get_calibration_info_reads_bytes_2_to_23 :
  forall (data data' : bytes) (self : ATIForceTorqueSensor),
    py_slice data 2 24 = py_slice data' 2 24 ->
    fst (get_calibration_info (answers data) self) =
    fst (get_calibration_info (answers data') self).
Proof.
  intros data data' self Hwin.
  destruct (connected self) eqn:Hc.
  2:{ unfold get_calibration_info, bind, attr. rewrite Hc. reflexivity. }
  destruct (closed (sock self)) eqn:Hs.
  1:{ rewrite !get_calibration_info_closed by assumption. reflexivity. }
  destruct (get_calibration_info_connected (answers data) data self Hc Hs
              eq_refl eq_refl) as [-> _].
  destruct (get_calibration_info_connected (answers data') data' self Hc Hs
              eq_refl eq_refl) as [-> _].
  assert (Hparse : forall d,
             parse_calibration (firstn BUFFER_SIZE d) =
             match py_index (py_slice d 2 24) 0, py_index (py_slice d 2 24) 1 with
             | Returned fu, Returned tu =>
                 Returned (byte_val fu, byte_val tu,
                           int_from_bytes_signed (py_slice (py_slice d 2 24) 2 6),
                           int_from_bytes_signed (py_slice (py_slice d 2 24) 6 10),
                           [raw_value (py_slice d 2 24) 10 0;
                            raw_value (py_slice d 2 24) 10 1;
                            raw_value (py_slice d 2 24) 10 2],
                           [raw_value (py_slice d 2 24) 10 3;
                            raw_value (py_slice d 2 24) 10 4;
                            raw_value (py_slice d 2 24) 10 5])
             | Raised e, _ => Raised e
             | _, Raised e => Raised e
             end).
  { intros d. rewrite parse_calibration_fields. unfold raw_value.
    rewrite !py_slice_firstn by (unfold BUFFER_SIZE; simpl; lia).
    rewrite !py_slice_sub by (simpl; lia).
    rewrite <- (py_index_window d BUFFER_SIZE 2 24 0)
      by (unfold BUFFER_SIZE; lia).
    rewrite <- (py_index_window d BUFFER_SIZE 2 24 1)
      by (unfold BUFFER_SIZE; lia).
    reflexivity. }
  rewrite (Hparse data), (Hparse data'), Hwin. reflexivity.
Qed.

Lemma get_calibration_info_reads_bytes_2_to_23_witness :
  fst (get_calibration_info (answers calibration_frame) connected_sensor) =
  fst (get_calibration_info
         (answers ([x12; x34] ++ skipn 2 calibration_frame ++ [xff]))
         connected_sensor).
Proof.
  apply (get_calibration_info_reads_bytes_2_to_23 calibration_frame
           ([x12; x34] ++ skipn 2 calibration_frame ++ [xff]) connected_sensor).
  reflexivity.
Defined.

Lemma get_calibration_info_only_touches_socket_witness :
  fst (get_calibration_info (answers calibration_frame) __init__)
    = Raised (Exception msg_socket_not_connected) /\
  closed (sock (snd (get_calibration_info (answers calibration_frame) __init__))) = true /\
  calls (sock (snd (get_calibration_info (answers calibration_frame) __init__)))
    = calls (sock __init__) ++ [call_close].
Proof.
  apply (proj2 (get_calibration_info_only_touches_socket
                  (answers calibration_frame) __init__)).
  reflexivity.
Defined.

(** * Calibration responses that are cut short (C9) *)

(** [int.from_bytes(bs, signed=True)] is the two's complement reading of
    the unsigned value on [8 * len(bs)] bits. *)
Lemma int_from_bytes_signed_sint (bs : bytes) :
  bs <> [] ->
  int_from_bytes_signed bs = sint (8 * Z.of_nat (List.length bs)) (be_unsigned bs).
Proof.
  destruct bs as [|b t]; [contradiction|]. intros _.
  unfold int_from_bytes_signed, sint.
  assert (Hu : be_unsigned (b :: t)
               = byte_val b * 256 ^ Z.of_nat (List.length t) + be_unsigned t).
  { unfold be_unsigned at 1. cbn [fold_left]. rewrite be_unsigned_acc. ring. }
  pose proof (be_unsigned_range t) as Ht. pose proof (byte_val_range b) as Hb.
  cbn [List.length]. rewrite Nat2Z.inj_succ.
  set (k := Z.of_nat (List.length t)) in *.
  assert (Hk : 0 <= k) by (unfold k; lia).
  replace (8 * Z.succ k - 1) with (8 * k + 7) by lia.
  replace (8 * Z.succ k) with (8 * k + 8) by lia.
  rewrite !Z.pow_add_r by lia.
  replace (2 ^ (8 * k)) with (256 ^ k)
    by (change 256 with (2 ^ 8); rewrite <- Z.pow_mul_r by lia; reflexivity).
  change (2 ^ 8) with 256. change (2 ^ 7) with 128.
  assert (0 < 256 ^ k) by (apply Z.pow_pos_nonneg; lia).
  rewrite Hu.
  destruct (Z.leb_spec 128 (byte_val b)),
           (Z.ltb_spec (byte_val b * 256 ^ k + be_unsigned t) (256 ^ k * 128)); nia.
Qed.

Lemma skipn_cons_nth (data : bytes) (off : nat) :
  (off < List.length data)%nat ->
  skipn off data = nth off data x00 :: skipn (S off) data.
Proof.
  revert off. induction data as [|b t IH]; intros off H; [simpl in H; lia|].
  destruct off as [|off]; [reflexivity|].
  simpl in H. cbn [skipn nth]. apply IH. lia.
Qed.

(** The unsigned value of [n] bytes that are all there. *)
Lemma be_unsigned_be_value (data : bytes) (n : nat) : forall off,
  (off + n <= List.length data)%nat ->
  be_unsigned (firstn n (skipn off data)) = be_value data off n.
Proof.
  induction n as [|m IH]; intros off H; [reflexivity|].
  rewrite (skipn_cons_nth data off) by lia. cbn [firstn be_value].
  unfold be_unsigned at 1. cbn [fold_left]. rewrite be_unsigned_acc.
  rewrite IH by lia.
  rewrite length_firstn, length_skipn.
  replace (Nat.min m (List.length data - S off)) with m by lia.
  unfold byte_at. ring.
Qed.

(** A slice of [w] bytes of what [recv] handed over, read as a signed
    int, is the field read from the bytes of it that are present. *)
Lemma int_from_slice_field_present (data : bytes) (off w : nat) :
  (off + w <= BUFFER_SIZE)%nat ->
  int_from_bytes_signed (py_slice (firstn BUFFER_SIZE data) off (off + w))
  = field_present data off w.
Proof.
  intros Hw. rewrite py_slice_firstn by assumption.
  unfold py_slice, field_present.
  replace (off + w - off)%nat with w by lia.
  set (n := Nat.min w (List.length data - off)).
  assert (Hcut : firstn w (skipn off data) = firstn n (skipn off data)).
  { unfold n. destruct (Nat.le_gt_cases w (List.length data - off)) as [Hle|Hgt].
    - rewrite Nat.min_l by assumption. reflexivity.
    - rewrite Nat.min_r by lia.
      rewrite !firstn_all2 by (rewrite length_skipn; lia). reflexivity. }
  rewrite Hcut.
  destruct (Nat.eqb_spec n 0) as [Hz|Hnz].
  - rewrite Hz. reflexivity.
  - assert (Hlen : List.length (firstn n (skipn off data)) = n)
      by (rewrite length_firstn, length_skipn; unfold n; lia).
    rewrite int_from_bytes_signed_sint
      by (intros Hnil; rewrite Hnil in Hlen; simpl in Hlen; lia).
    rewrite Hlen. rewrite be_unsigned_be_value by (unfold n; lia).
    reflexivity.
Qed.

Lemma py_index_received (data : bytes) (i : nat) :
  (i < List.length data)%nat -> (i < BUFFER_SIZE)%nat ->
  py_index (firstn BUFFER_SIZE data) i = Returned (nth i data x00).
Proof.
  intros Hi Hn. unfold py_index. rewrite nth_error_firstn.
  destruct (Nat.ltb_spec i BUFFER_SIZE); [|lia].
  rewrite (nth_error_nth' data x00 Hi). reflexivity.
Qed.

(** What [parse_calibration] returns for every response of 4 bytes or
    more: each field is read from the bytes of it that are present. *)
Lemma parse_calibration_fields_present (data : bytes) :
  (4 <= List.length data)%nat ->
  parse_calibration (firstn BUFFER_SIZE data) =
  Returned (byte_at data 2, byte_at data 3,
            field_present data 4 4, field_present data 8 4,
            [field_present data 12 2; field_present data 14 2; field_present data 16 2],
            [field_present data 18 2; field_present data 20 2; field_present data 22 2]).
Proof.
  intros Hlen. rewrite parse_calibration_fields.
  rewrite !py_index_received by (unfold BUFFER_SIZE; lia).
  unfold raw_value, byte_at.
  rewrite <- (int_from_slice_field_present data 4 4) by (unfold BUFFER_SIZE; lia).
  rewrite <- (int_from_slice_field_present data 8 4) by (unfold BUFFER_SIZE; lia).
  rewrite <- (int_from_slice_field_present data 12 2) by (unfold BUFFER_SIZE; lia).
  rewrite <- (int_from_slice_field_present data 14 2) by (unfold BUFFER_SIZE; lia).
  rewrite <- (int_from_slice_field_present data 16 2) by (unfold BUFFER_SIZE; lia).
  rewrite <- (int_from_slice_field_present data 18 2) by (unfold BUFFER_SIZE; lia).
  rewrite <- (int_from_slice_field_present data 20 2) by (unfold BUFFER_SIZE; lia).
  rewrite <- (int_from_slice_field_present data 22 2) by (unfold BUFFER_SIZE; lia).
  reflexivity.
Qed.

(** C9 as amended: for a calibration response shorter than 24 bytes
    [get_calibration_info] checks no length.  With fewer than 4 bytes the
    index of a unit code byte raises [IndexError].  With 4 to 23 bytes it
    returns and the socket stays open: the unit codes are bytes 2 and 3,
    and each of the eight other fields (the two counts at offsets 4 and
    8, on 4 bytes, the six scaling factors at offsets 12 to 22, on 2
    bytes) is read from the bytes of it that are present: with [n] of its
    bytes in the response it is the signed big-endian value, on [8 * n]
    bits, of these [n] bytes, and it is 0 when none of its bytes is
    there. *)
Theorem get_calibration_info_short_frame :
  forall (data : bytes) (self : ATIForceTorqueSensor),
    connected self = true ->
    closed (sock self) = false ->
    (List.length data < 24)%nat ->
    if (List.length data <? 4)%nat
    then fst (get_calibration_info (answers data) self) = Raised IndexError
    else
      fst (get_calibration_info (answers data) self) =
      Returned (byte_at data 2, byte_at data 3,
                field_present data 4 4, field_present data 8 4,
                [field_present data 12 2; field_present data 14 2;
                 field_present data 16 2],
                [field_present data 18 2; field_present data 20 2;
                 field_present data 22 2]) /\
      closed (sock (snd (get_calibration_info (answers data) self))) = false /\
      (forall off w, (List.length data <= off)%nat -> field_present data off w = 0) /\
      (forall off w, (List.length data = off + 1)%nat -> (0 < w)%nat ->
                     field_present data off w = be8 data off) /\
      (forall off, (off + 2 <= List.length data)%nat ->
                   field_present data off 2 = be16 data off) /\
      (forall off, (off + 4 <= List.length data)%nat ->
                   field_present data off 4 = be32 data off).
Proof.
  intros data self Hc Hs Hlen.
  destruct (get_calibration_info_connected (answers data) data self Hc Hs
              eq_refl eq_refl) as [Hf Hcl].
  destruct (Nat.ltb_spec (List.length data) 4) as [Htiny|Hfour].
  - rewrite Hf, (parse_calibration_tiny data Htiny). reflexivity.
  - rewrite (parse_calibration_fields_present data Hfour) in Hf, Hcl.
    split; [exact Hf|]. split; [exact Hcl|].
    split; [|split; [|split]].
    + intros off w H. unfold field_present.
      replace (List.length data - off)%nat with 0%nat by lia.
      rewrite Nat.min_0_r. reflexivity.
    + intros off w H Hw. unfold field_present.
      replace (List.length data - off)%nat with 1%nat by lia.
      replace (Nat.min w 1) with 1%nat by lia.
      cbn [Nat.eqb be_value]. unfold be8. f_equal.
      change (256 ^ Z.of_nat 0) with 1. lia.
    + intros off H. unfold field_present.
      replace (Nat.min 2 (List.length data - off)) with 2%nat by lia.
      cbn [Nat.eqb be_value]. unfold be16. f_equal.
      change (256 ^ Z.of_nat 1) with 256. change (256 ^ Z.of_nat 0) with 1.
      change (2 ^ 8) with 256. replace (off + 1)%nat with (S off) by lia. lia.
    + intros off H. unfold field_present.
      replace (Nat.min 4 (List.length data - off)) with 4%nat by lia.
      cbn [Nat.eqb be_value]. unfold be32. f_equal.
      change (256 ^ Z.of_nat 3) with 16777216. change (256 ^ Z.of_nat 2) with 65536.
      change (256 ^ Z.of_nat 1) with 256. change (256 ^ Z.of_nat 0) with 1.
      change (2 ^ 24) with 16777216. change (2 ^ 16) with 65536.
      change (2 ^ 8) with 256.
      replace (off + 1)%nat with (S off) by lia.
      replace (off + 2)%nat with (S (S off)) by lia.
      replace (off + 3)%nat with (S (S (S off))) by lia. lia.
Qed.

(** The documented response cut after 21 bytes: the counts and the first
    four scaling factors are whole, the fifth is read from its single
    byte [00] and is 0 instead of 5, the sixth has no byte and is 0. *)
Lemma get_calibration_info_short_frame_witness :
  fst (get_calibration_info (answers (firstn 21 calibration_frame)) connected_sensor) =
  Returned (1, 2, 1000, 1000, [10; 10; 10], [5; 0; 0]) /\
  closed (sock (snd (get_calibration_info (answers (firstn 21 calibration_frame))
                       connected_sensor))) = false.
Proof.
  pose proof (get_calibration_info_short_frame (firstn 21 calibration_frame)
                connected_sensor eq_refl eq_refl ltac:(simpl; lia)) as H.
  change ((List.length (firstn 21 calibration_frame) <? 4)%nat) with false in H.
  cbv iota in H. destruct H as (Hf & Hcl & _).
  split; [exact Hf | exact Hcl].
Defined.
